(** * youtube_watcher: playlist walk, video lookup and publication

    A shallow embedding of [youtube_watcher.py].  Python values decoded
    from JSON are an inductive type, the built-in operations the script
    uses ([x[k]], [d.get(k, default)], [int(x)], iteration) are total
    functions into a result type that carries the exception raised, and the
    script's effects (HTTP requests, the schema registry, the Kafka
    producer) are operations of an abstract world threaded through a
    state-and-exception monad that also records a trace of the calls made. *)

From Stdlib Require Import ZArith List String Ascii Bool Lia.
From Stdlib Require Import Floats.SpecFloat.
Import ListNotations.

Local Open Scope string_scope.
Local Open Scope Z_scope.
Set Warnings "-register-all".

(** ** Python values *)

(** What [json.loads] can produce, which is also all the script ever
    handles: [None], booleans, integers, floats (IEEE 754 binary64, as a
    [spec_float]), strings, lists, and dicts with string keys.  A dict is
    an association list in insertion order; the first binding of a key is
    the one in force. *)
Inductive value : Type :=
| VNone
| VBool (b : bool)
| VInt (z : Z)
| VFloat (f : spec_float)
| VStr (s : string)
| VList (l : list value)
| VDict (d : list (string * value)).

(** The exceptions the script can meet.  It defines none of its own and
    catches none. *)
Inductive exn : Type :=
| RequestException (msg : string)
| JSONDecodeError
| KeyError (key : string)
| TypeError
| AttributeError
| ValueError
| OverflowError
| RecursionError
| KafkaException (msg : string).

Inductive result (A : Type) : Type :=
| Ok (a : A)
| Raise (e : exn).
Arguments Ok {A} a.
Arguments Raise {A} e.

Definition result_map {A B} (f : A -> B) (r : result A) : result B :=
  match r with
  | Ok a => Ok (f a)
  | Raise e => Raise e
  end.

Definition result_bind {A B} (r : result A) (k : A -> result B) : result B :=
  match r with
  | Ok a => k a
  | Raise e => Raise e
  end.

(** ** Built-in operations *)

Fixpoint dict_lookup (k : string) (d : list (string * value)) : option value :=
  match d with
  | [] => None
  | (k', v) :: d' => if String.eqb k k' then Some v else dict_lookup k d'
  end.

(** [obj[k]] for a string key [k]: a dict answers or raises [KeyError];
    a list or a string wants an integer index and everything else is not
    subscriptable, all of which is a [TypeError]. *)
Definition getitem (obj : value) (k : string) : result value :=
  match obj with
  | VDict d =>
      match dict_lookup k d with
      | Some v => Ok v
      | None => Raise (KeyError k)
      end
  | _ => Raise TypeError
  end.

(** [obj.get(k, default)]: only a dict has the method. *)
Definition method_get (obj : value) (k : string) (default : value) : result value :=
  match obj with
  | VDict d =>
      match dict_lookup k d with
      | Some v => Ok v
      | None => Ok default
      end
  | _ => Raise AttributeError
  end.

Fixpoint dict_keys (seen : list string) (d : list (string * value)) : list value :=
  match d with
  | [] => []
  | (k, _) :: d' =>
      if existsb (String.eqb k) seen then dict_keys seen d'
      else VStr k :: dict_keys (k :: seen) d'
  end.

(** The characters of a string, one string per code point: a byte is
    kept with the continuation bytes that follow it. *)
Definition is_continuation (c : ascii) : bool :=
  let b := N_of_ascii c in ((128 <=? b) && (b <? 192))%N.

Fixpoint chars_of (s : string) : list string :=
  match s with
  | EmptyString => []
  | String c s' =>
      match s' with
      | EmptyString => [String c EmptyString]
      | String c' _ =>
          if is_continuation c' then
            match chars_of s' with
            | g :: gs => String c g :: gs
            | [] => [String c EmptyString]
            end
          else String c EmptyString :: chars_of s'
      end
  end.

Definition str_chars (s : string) : list value := map VStr (chars_of s).

(** [x is None] *)
Definition is_none (x : value) : bool :=
  match x with
  | VNone => true
  | _ => false
  end.

(** What [yield from obj] iterates over: the elements of a list, the keys
    of a dict, the characters of a string; anything else is not iterable. *)
Definition iter_value (obj : value) : result (list value) :=
  match obj with
  | VList l => Ok l
  | VDict d => Ok (dict_keys [] d)
  | VStr s => Ok (str_chars s)
  | _ => Raise TypeError
  end.

(** *** [int(x)] *)

(** A string holds the UTF-8 encoding of a Python [str] (a lone surrogate
    being encoded like any other code point).  [code_points] decodes it;
    [acc] is the value read so far of a code point that still needs [need]
    continuation bytes. *)
Fixpoint code_points_from (s : string) (acc : N) (need : nat) : list N :=
  match s with
  | EmptyString =>
      match need with
      | O => []
      | S _ => [65533%N]
      end
  | String c s' =>
      let b := N_of_ascii c in
      match need with
      | O =>
          if (b <? 128)%N then b :: code_points_from s' 0%N 0
          else if (b <? 192)%N then 65533%N :: code_points_from s' 0%N 0
          else if (b <? 224)%N then code_points_from s' (b - 192)%N 1
          else if (b <? 240)%N then code_points_from s' (b - 224)%N 2
          else code_points_from s' (b - 240)%N 3
      | S need' =>
          let acc' := (acc * 64 + b mod 64)%N in
          match need' with
          | O => acc' :: code_points_from s' 0%N 0
          | S _ => code_points_from s' acc' need'
          end
      end
  end.

Definition code_points (s : string) : list N := code_points_from s 0%N 0.

(** The white space beyond ASCII ([str.isspace], Unicode 14.0). *)
Definition unicode_spaces : list N :=
  [133; 160; 5760; 8192; 8193; 8194; 8195; 8196; 8197; 8198; 8199; 8200;
   8201; 8202; 8232; 8233; 8239; 8287; 12288]%N.

(** The code points of the digit zero of every decimal digit system
    beyond ASCII (category Nd, Unicode 14.0); the nine that follow each
    are the digits one to nine. *)
Definition unicode_zeros : list N :=
  [1632; 1776; 1984; 2406; 2534; 2662; 2790; 2918; 3046; 3174; 3302; 3430;
   3558; 3664; 3792; 3872; 4160; 4240; 6112; 6160; 6470; 6608; 6784; 6800;
   6992; 7088; 7232; 7248; 42528; 43216; 43264; 43472; 43504; 43600; 44016;
   65296; 66720; 68912; 69734; 69872; 69942; 70096; 70384; 70736; 70864;
   71248; 71360; 71472; 71904; 72016; 72784; 73040; 73120; 92768; 92864;
   93008; 120782; 120792; 120802; 120812; 120822; 123200; 123632; 125264;
   130032]%N.

Definition unicode_decimal (c : N) : option N :=
  match find (fun z => (z <=? c) && (c <? z + 10))%N unicode_zeros with
  | Some z => Some (c - z)%N
  | None => None
  end.

(** What [int] makes of a code point before it parses: ASCII is kept,
    other white space becomes a space, other decimal digits become ASCII
    digits, and anything else is refused. *)
Definition to_ascii (c : N) : option N :=
  if (c <? 127)%N then Some c
  else if existsb (N.eqb c) unicode_spaces then Some 32%N
  else option_map (N.add 48) (unicode_decimal c).

Fixpoint all_to_ascii (cs : list N) : option (list N) :=
  match cs with
  | [] => Some []
  | c :: cs' =>
      match to_ascii c, all_to_ascii cs' with
      | Some a, Some r => Some (a :: r)
      | _, _ => None
      end
  end.

(** The white space the parser skips: tab to carriage return, and space. *)
Definition is_space (c : N) : bool :=
  ((9 <=? c) && (c <=? 13) || (c =? 32))%N.

Definition digit_of (c : N) : option Z :=
  if ((48 <=? c) && (c <=? 57))%N then Some (Z.of_N c - 48) else None.

Fixpoint lstrip (s : list N) : list N :=
  match s with
  | c :: s' => if is_space c then lstrip s' else s
  | [] => []
  end.

(** The longest decimal string [int] converts (the interpreter's default
    [int_max_str_digits]). *)
Definition max_str_digits : N := 4300.

(** Decimal digits, single underscores allowed between two digits, then
    optional trailing white space.  [after_digit] says whether the last
    character read was a digit, [count] how many digits were read. *)
Fixpoint int_digits (s : list N) (acc : Z) (count : N) (after_digit : bool) : option Z :=
  match s with
  | [] => if after_digit && (count <=? max_str_digits)%N then Some acc else None
  | c :: s' =>
      match digit_of c with
      | Some d => int_digits s' (acc * 10 + d) (count + 1)%N true
      | None =>
          if after_digit then
            if (c =? 95)%N then
              match s' with
              | c' :: _ =>
                  match digit_of c' with
                  | Some _ => int_digits s' acc count false
                  | None => None
                  end
              | [] => None
              end
            else if is_space c then
              match lstrip s' with
              | [] => if (count <=? max_str_digits)%N then Some acc else None
              | _ :: _ => None
              end
            else None
          else None
      end
  end.

(** [int(s)] for a string: leading white space, an optional sign, the
    digits. *)
Definition int_of_str (s : string) : option Z :=
  match all_to_ascii (code_points s) with
  | None => None
  | Some cs =>
      match lstrip cs with
      | c :: s' =>
          if (c =? 45)%N then option_map Z.opp (int_digits s' 0 0%N false)
          else if (c =? 43)%N then int_digits s' 0 0%N false
          else int_digits (c :: s') 0 0%N false
      | [] => None
      end
  end.

(** Truncation of a float toward zero. *)
Definition int_of_float (f : spec_float) : result Z :=
  match f with
  | S754_zero _ => Ok 0
  | S754_infinity _ => Raise OverflowError
  | S754_nan => Raise ValueError
  | S754_finite s m e =>
      let mag := match e with
                 | Z0 => Zpos m
                 | Zpos p => Z.shiftl (Zpos m) (Zpos p)
                 | Zneg p => Z.shiftr (Zpos m) (Zpos p)
                 end in
      Ok (if s then - mag else mag)
  end.

Definition py_int (x : value) : result value :=
  match x with
  | VInt z => Ok (VInt z)
  | VBool b => Ok (VInt (if b then 1 else 0))
  | VFloat f => result_map VInt (int_of_float f)
  | VStr s =>
      match int_of_str s with
      | Some z => Ok (VInt z)
      | None => Raise ValueError
      end
  | VNone | VList _ | VDict _ => Raise TypeError
  end.

(** ** The outside world *)

(** A call of [requests.get(url, params=...)]: the parameters are kept as
    the script passes them, [pageToken] being [None] on a first page. *)
Record request : Type := {
  url : string;
  params : list (string * value)
}.

(** The text of a response is represented by what [json.loads] makes of
    it: the decoded value, or the raw text when it is not JSON. *)
Inductive body : Type :=
| Json (v : value)
| NotJson (raw : string).

Record response : Type := {
  status_code : Z;
  text : body
}.

Definition json_loads (b : body) : result value :=
  match b with
  | Json v => Ok v
  | NotJson _ => Raise JSONDecodeError
  end.

(** A delivery report handed to the delivery callback: the error, if the
    record could not be delivered, and the record. *)
Record delivery : Type := {
  delivery_err : option string;
  delivery_key : value;
  delivery_value : value
}.

(** The collaborators of the script.  Each operation may raise and may
    change the world.  [requests_get] raises on a transport failure and
    otherwise returns a response, whatever its status.  The next four are
    the constructors and the lookup [main] starts with:
    [SchemaRegistryClient(conf)], [client.get_latest_version(subject)]
    (giving the schema string), [AvroSerializer(client, schema_str)] and
    [SerializingProducer(kafka_config)].  [produce] serializes and
    enqueues a record; [flush] waits for the queue to drain and returns the
    delivery reports that are then served to the callbacks. *)
Class World (W : Type) : Type := {
  requests_get : request -> W -> result response * W;
  schema_registry_client : value -> W -> result unit * W;
  get_latest_version : string -> W -> result string * W;
  avro_serializer : string -> W -> result unit * W;
  serializing_producer : value -> W -> result unit * W;
  produce : string -> value -> value -> W -> result unit * W;
  flush : W -> result (list delivery) * W
}.

(** What an observer of a run sees, in order. *)
Inductive event : Type :=
| EvGet (r : request)
| EvYield (item : value)
| EvProduce (topic : string) (key : value) (val : value)
| EvFlush.

Record state (W : Type) : Type := {
  world : W;
  trace : list event
}.
Arguments world {W} s.
Arguments trace {W} s.

(** ** State and exception monad *)

Definition M (W A : Type) : Type := state W -> result A * state W.

Definition ret {W A} (a : A) : M W A := fun s => (Ok a, s).

Definition bind {W A B} (c : M W A) (k : A -> M W B) : M W B :=
  fun s =>
    match c s with
    | (Ok a, s') => k a s'
    | (Raise e, s') => (Raise e, s')
    end.

Definition lift {W A} (r : result A) : M W A := fun s => (r, s).

Definition emit {W} (e : event) : M W unit :=
  fun s => (Ok tt, {| world := world s; trace := trace s ++ [e] |}).

Definition call {W A} (op : W -> result A * W) : M W A :=
  fun s =>
    let (r, w) := op (world s) in
    (r, {| world := w; trace := trace s |}).

Notation "x <- c ;; k" := (bind c (fun x => k))
  (at level 61, c at next level, right associativity).
Notation "c ;;; k" := (bind c (fun _ => k))
  (at level 61, right associativity).

(** [for x in xs: body(x)], stopping at the first exception. *)
Fixpoint for_each {W A} (xs : list A) (body : A -> M W unit) : M W unit :=
  match xs with
  | [] => ret tt
  | x :: xs' => body x ;;; for_each xs' body
  end.

(** ** The script *)

Section Script.
Context {W : Type} `{World W}.

Definition http_get (r : request) : M W response :=
  emit (EvGet r) ;;; call (requests_get r).

Definition playlist_items_request (google_api_key youtube_playlist_id page_token : value)
  : request :=
  {| url := "https://www.googleapis.com/youtube/v3/playlistItems";
     params := [("key", google_api_key);
                ("playlistId", youtube_playlist_id);
                ("part", VStr "contentDetails");
                ("pageToken", page_token)] |}.

Definition videos_request (google_api_key video_id page_token : value) : request :=
  {| url := "https://www.googleapis.com/youtube/v3/videos";
     params := [("key", google_api_key);
                ("id", video_id);
                ("part", VStr "snippet,statistics");
                ("pageToken", page_token)] |}.

Definition fetch_playlist_items_page (google_api_key youtube_playlist_id page_token : value)
  : M W value :=
  response <- http_get (playlist_items_request google_api_key youtube_playlist_id page_token) ;;
  payload <- lift (json_loads (text response)) ;;
  ret payload.

Definition fetch_videos_page (google_api_key video_id page_token : value) : M W value :=
  response <- http_get (videos_request google_api_key video_id page_token) ;;
  payload <- lift (json_loads (text response)) ;;
  ret payload.

(** [yield from obj], the consumer of the generator being [yield]. *)
Definition yield_from (obj : value) (yield : value -> M W unit) : M W unit :=
  xs <- lift (iter_value obj) ;;
  for_each xs yield.

(** A generator is run against its consumer: [yield] is what the [for]
    loop that drives the generator does with each item, so the effects of
    producer and consumer interleave as they do in Python.  [depth] is
    the number of frames the interpreter still allows: each recursive
    [yield from] takes one, and none left is a [RecursionError]. *)
Fixpoint fetch_playlist_items (depth : nat)
    (google_api_key youtube_playlist_id page_token : value)
    (yield : value -> M W unit) : M W unit :=
  match depth with
  | O => lift (Raise RecursionError)
  | S depth' =>
      payload <- fetch_playlist_items_page google_api_key youtube_playlist_id page_token ;;
      items <- lift (getitem payload "items") ;;
      yield_from items yield ;;;
      next_page_token <- lift (method_get payload "nextPageToken" VNone) ;;
      if is_none next_page_token then ret tt
      else fetch_playlist_items depth' google_api_key youtube_playlist_id
             next_page_token yield
  end.

Definition fetch_videos (depth : nat)
    (google_api_key youtube_playlist_id page_token : value)
    (yield : value -> M W unit) : M W unit :=
  match depth with
  | O => lift (Raise RecursionError)
  | S depth' =>
      payload <- fetch_videos_page google_api_key youtube_playlist_id page_token ;;
      items <- lift (getitem payload "items") ;;
      yield_from items yield ;;;
      next_page_token <- lift (method_get payload "nextPageToken" VNone) ;;
      if is_none next_page_token then ret tt
      else fetch_playlist_items depth' google_api_key youtube_playlist_id
             next_page_token yield
  end.

(** [int(video["statistics"].get(name, 0))] *)
Definition statistic (video : value) (name : string) : result value :=
  result_bind (getitem video "statistics") (fun statistics =>
  result_bind (method_get statistics name (VInt 0)) py_int).

(** [video["snippet"]["title"]] *)
Definition snippet_title (video : value) : result value :=
  result_bind (getitem video "snippet") (fun snippet => getitem snippet "title").

Definition summarise_video (video : value) : result value :=
  result_bind (getitem video "id") (fun video_id =>
  result_bind (snippet_title video) (fun title =>
  result_bind (statistic video "viewCount") (fun views =>
  result_bind (statistic video "likeCount") (fun likes =>
  result_bind (statistic video "commentCount") (fun comments =>
  Ok (VDict [("video_id", video_id);
             ("title", title);
             ("views", views);
             ("likes", likes);
             ("comments", comments)])))))).

Definition on_delivery {E R : Type} (err : E) (record : R) : M W unit :=
  ret tt.

(** The [value=] argument of the call to [produce] in [main]. *)
Definition main_value (video : value) : result value :=
  result_bind (snippet_title video) (fun title =>
  result_bind (statistic video "viewCount") (fun views =>
  result_bind (statistic video "likeCount") (fun likes =>
  result_bind (statistic video "commentCount") (fun comments =>
  Ok (VDict [("TITLE", title);
             ("VIEWS", views);
             ("LIKES", likes);
             ("COMMENTS", comments)]))))).

(** Body of the inner loop of [main]: the summary is computed for the
    log line, then the record is handed to the producer. *)
Definition main_for_video (video_id video : value) : M W unit :=
  _ <- lift (summarise_video video) ;;
  val <- lift (main_value video) ;;
  emit (EvProduce "youtube_videos" video_id val) ;;;
  call (produce "youtube_videos" video_id val).

(** Body of the outer loop of [main]. *)
Definition main_for_video_item (depth : nat) (google_api_key video_item : value)
  : M W unit :=
  content_details <- lift (getitem video_item "contentDetails") ;;
  video_id <- lift (getitem content_details "videoId") ;;
  fetch_videos depth google_api_key video_id VNone (main_for_video video_id).

(** [producer.flush()]: the delivery reports are served to the callback
    every record was produced with. *)
Definition producer_flush : M W unit :=
  emit EvFlush ;;;
  reports <- call flush ;;
  for_each reports (fun r => on_delivery (delivery_err r) (delivery_key r, delivery_value r)).

(** [config["kafka"] | {...}]: the left operand must be a dict.  The
    two serializers it is merged with are not values of the model; the
    world keeps them. *)
Definition kafka_config (kafka : value) : result value :=
  match kafka with
  | VDict d => Ok (VDict d)
  | _ => Raise TypeError
  end.

(** [main] up to its loop: the registry client, the schema, the
    producer, then the two settings the loop needs, which it returns. *)
Definition main_setup (config : value) : M W (value * value) :=
  registry <- lift (getitem config "schema_registry") ;;
  call (schema_registry_client registry) ;;;
  schema_str <- call (get_latest_version "youtube_videos-value") ;;
  kafka <- lift (getitem config "kafka") ;;
  call (avro_serializer schema_str) ;;;
  kafka <- lift (kafka_config kafka) ;;
  call (serializing_producer kafka) ;;;
  google_api_key <- lift (getitem config "google_api_key") ;;
  youtube_playlist_id <- lift (getitem config "youtube_playlist_id") ;;
  ret (google_api_key, youtube_playlist_id).

Definition main (config : value) (depth : nat) : M W unit :=
  settings <- main_setup config ;;
  fetch_playlist_items depth (fst settings) (snd settings) VNone
    (main_for_video_item depth (fst settings)) ;;;
  producer_flush.

(** A consumer that only records what it is given: what
    [list(generator)] would collect. *)
Definition record_yield (item : value) : M W unit := emit (EvYield item).

End Script.

(** ** Reading a trace *)

Fixpoint produce_calls (tr : list event) : list (string * value * value) :=
  match tr with
  | [] => []
  | EvProduce topic key val :: tr' => (topic, key, val) :: produce_calls tr'
  | _ :: tr' => produce_calls tr'
  end.

Fixpoint yielded (tr : list event) : list value :=
  match tr with
  | [] => []
  | EvYield item :: tr' => item :: yielded tr'
  | _ :: tr' => yielded tr'
  end.

Fixpoint requests_of (tr : list event) : list request :=
  match tr with
  | [] => []
  | EvGet r :: tr' => r :: requests_of tr'
  | _ :: tr' => requests_of tr'
  end.

Definition is_flush (e : event) : bool :=
  match e with
  | EvFlush => true
  | _ => false
  end.

(** The renaming between the two renderings of a summary: the fields of
    [summarise_video] as [main] names them in the published value.  The
    video identifier is not a field of the value: it travels as the key. *)
Definition published_name (field : string) : option string :=
  if String.eqb field "title" then Some "TITLE"
  else if String.eqb field "views" then Some "VIEWS"
  else if String.eqb field "likes" then Some "LIKES"
  else if String.eqb field "comments" then Some "COMMENTS"
  else None.

Fixpoint rename_fields (d : list (string * value)) : list (string * value) :=
  match d with
  | [] => []
  | (k, v) :: d' =>
      match published_name k with
      | Some k' => (k', v) :: rename_fields d'
      | None => rename_fields d'
      end
  end.

Definition published_value (summary : value) : value :=
  match summary with
  | VDict d => VDict (rename_fields d)
  | v => v
  end.

(** ** A test double for the world *)

(** The source API answers by a fixed mapping from requests; the producer
    accepts every record and reports each one delivered, except that the
    records whose key is listed in [undeliverable] are reported failed.
    The state is the number of requests served and the queue of records
    not yet flushed. *)
Record mock : Type := {
  served : nat;
  queue : list (value * value)
}.

Definition mock_delivery (failed : value -> bool) (kv : value * value) : delivery :=
  {| delivery_err := if failed (fst kv) then Some "delivery failed" else None;
     delivery_key := fst kv;
     delivery_value := snd kv |}.

Definition mock_world (responses : request -> result response) (failed : value -> bool)
  : World mock :=
  {| requests_get := fun r w =>
       (responses r, {| served := S (served w); queue := queue w |});
     schema_registry_client := fun _ w => (Ok tt, w);
     get_latest_version := fun _ w => (Ok "schema", w);
     avro_serializer := fun _ w => (Ok tt, w);
     serializing_producer := fun _ w => (Ok tt, w);
     produce := fun _ key val w =>
       (Ok tt, {| served := served w; queue := queue w ++ [(key, val)] |});
     flush := fun w =>
       (Ok (map (mock_delivery failed) (queue w)), {| served := served w; queue := [] |}) |}.

(** No delivery fails. *)
Definition quiet : value -> bool := fun _ => false.

Definition mock_init : state mock :=
  {| world := {| served := 0; queue := [] |}; trace := [] |}.

Definition mock_config : value :=
  VDict [("schema_registry", VDict []);
         ("kafka", VDict []);
         ("google_api_key", VStr "k");
         ("youtube_playlist_id", VStr "PL")].

Definition page_token_of (r : request) : value :=
  match dict_lookup "pageToken" (params r) with
  | Some v => v
  | None => VNone
  end.

Definition is_playlist_items (r : request) : bool :=
  String.eqb (url r) "https://www.googleapis.com/youtube/v3/playlistItems".

Definition is_videos (r : request) : bool :=
  String.eqb (url r) "https://www.googleapis.com/youtube/v3/videos".

Definition ok_json (v : value) : result response :=
  Ok {| status_code := 200; text := Json v |}.

Definition playlist_item (video_id : string) : value :=
  VDict [("contentDetails", VDict [("videoId", VStr video_id)])].
(** ** Pages *)

(** A page as the generators read a payload: the items they iterate over
    and the continuation cursor, [None] when there is none. *)
Record page : Type := {
  page_items : list value;
  page_next : value
}.

Definition page_of (payload : value) : result page :=
  result_bind (getitem payload "items") (fun items =>
  result_bind (iter_value items) (fun xs =>
  result_bind (method_get payload "nextPageToken" VNone) (fun next =>
  Ok {| page_items := xs; page_next := next |}))).

(** The page a call of [requests.get] leads to, if any. *)
Definition decoded (r : result response) : result page :=
  result_bind r (fun resp => result_bind (json_loads (text resp)) page_of).

Section Pages.
Context {W : Type} `{World W}.
Variables google_api_key youtube_playlist_id : value.



End Pages.

(** ** Scenarios *)

(** Two playlist pages: the first has one item and the cursor ["X"], the
    second, served for the cursor ["X"], has one item and no cursor. *)
Definition two_pages (r : request) : result response :=
  if is_playlist_items r then
    match page_token_of r with
    | VNone => ok_json (VDict [("items", VList [playlist_item "a"]);
                               ("nextPageToken", VStr "X")])
    | VStr "X" => ok_json (VDict [("items", VList [playlist_item "b"])])
    | _ => Raise (RequestException "unexpected cursor")
    end
  else Raise (RequestException "unexpected endpoint").

Definition id_of (r : request) : value :=
  match dict_lookup "id" (params r) with
  | Some v => v
  | None => VNone
  end.

Definition video_a : value :=
  VDict [("id", VStr "a");
         ("snippet", VDict [("title", VStr "T")]);
         ("statistics", VDict [("viewCount", VStr "5")])].

(** One playlist page with the single item ["a"] and no cursor; the
    detail endpoint answers for ["a"] with one entity and no cursor. *)
Definition single_video (r : request) : result response :=
  if is_playlist_items r then ok_json (VDict [("items", VList [playlist_item "a"])])
  else if is_videos r then
    match id_of r with
    | VStr "a" => ok_json (VDict [("items", VList [video_a])])
    | _ => ok_json (VDict [("items", VList [])])
    end
  else Raise (RequestException "unexpected endpoint").

(** The detail endpoint answers for ["a"] with one entity and the cursor
    ["X"]; the playlist endpoint, asked for a playlist ["a"] at the cursor
    ["X"], answers with one playlist item. *)
Definition detail_with_cursor (r : request) : result response :=
  if is_videos r then
    match page_token_of r with
    | VNone => ok_json (VDict [("items", VList [video_a]);
                               ("nextPageToken", VStr "X")])
    | _ => ok_json (VDict [("items", VList [])])
    end
  else if is_playlist_items r then
    match page_token_of r with
    | VStr "X" => ok_json (VDict [("items", VList [playlist_item "z"])])
    | _ => ok_json (VDict [("items", VList [playlist_item "a"])])
    end
  else Raise (RequestException "unexpected endpoint").

Definition video_b : value :=
  VDict [("id", VStr "b");
         ("snippet", VDict [("title", VStr "B")]);
         ("statistics", VDict [])].

Definition video_unnamed : value :=
  VDict [("id", VStr "");
         ("snippet", VDict [("title", VStr "U")]);
         ("statistics", VDict [])].

(** A playlist of two references, ["a"] and the empty string; the detail
    endpoint answers for ["a"] with an entity whose identifier is ["b"],
    and for the empty string with an entity whose identifier is empty. *)
Definition mismatched_ids (r : request) : result response :=
  if is_playlist_items r then
    ok_json (VDict [("items", VList [playlist_item "a"; playlist_item ""])])
  else if is_videos r then
    match id_of r with
    | VStr "a" => ok_json (VDict [("items", VList [video_b])])
    | _ => ok_json (VDict [("items", VList [video_unnamed])])
    end
  else Raise (RequestException "unexpected endpoint").

(** Every request is answered with status 500 and a JSON body that has
    an (empty) [items] field. *)
Definition error_status_with_items (r : request) : result response :=
  Ok {| status_code := 500; text := Json (VDict [("items", VList [])]) |}.

(** Every request is answered with status 503 and an HTML body. *)
Definition error_status_html (r : request) : result response :=
  Ok {| status_code := 503; text := NotJson "<html>Service Unavailable</html>" |}.

Definition is_http_error (r : result response) : bool :=
  match r with
  | Ok resp => 400 <=? status_code resp
  | Raise _ => false
  end.

(** A first answer the walk cannot read a page from: the request raised,
    or the body is not JSON, or the decoded payload has no [items] to
    subscript. *)
Definition unreadable (r : result response) : bool :=
  match r with
  | Raise _ => true
  | Ok resp =>
      match text resp with
      | NotJson _ => true
      | Json payload =>
          match getitem payload "items" with
          | Ok _ => false
          | Raise _ => true
          end
      end
  end.

(** ** Trace invariants *)

Section Appends.
Context {W : Type} `{World W}.

(** [c] only ever appends to the trace, and only events satisfying [P]. *)
Definition appends_only {A} (P : event -> Prop) (c : M W A) : Prop :=
  forall s, exists evs, trace (snd (c s)) = (trace s ++ evs)%list /\ Forall P evs.

(** An item of a page the world can serve to the lookup made for
    [video_id]: a page of the detail endpoint asked for that identifier
    or, a cursor of [fetch_videos] being followed on the playlist
    endpoint, a page of the playlist of that name. *)
Definition served_to (google_api_key video_id item : value) : Prop :=
  exists (w : W) page_token p,
    (decoded (fst (requests_get (videos_request google_api_key video_id page_token) w))
       = Ok p \/
     decoded (fst (requests_get
                     (playlist_items_request google_api_key video_id page_token) w))
       = Ok p) /\
    In item (page_items p).

(** What can be said of an event of the outer loop body run for
    [video_item]: it is a request of the lookup made for the reference's
    [videoId], or the publication, under that [videoId] as key, of the
    renamed summary of an entity served to that lookup, the identifier of
    the summary being the entity's [id]. *)
Definition event_of_lookup (google_api_key video_item : value) (e : event) : Prop :=
  match e with
  | EvGet r =>
      exists content_details video_id page_token,
        getitem video_item "contentDetails" = Ok content_details /\
        getitem content_details "videoId" = Ok video_id /\
        (r = videos_request google_api_key video_id page_token \/
         r = playlist_items_request google_api_key video_id page_token)
  | EvProduce topic key val =>
      topic = "youtube_videos" /\
      (exists content_details,
          getitem video_item "contentDetails" = Ok content_details /\
          getitem content_details "videoId" = Ok key) /\
      (exists video summary,
          served_to google_api_key key video /\
          summarise_video video = Ok summary /\
          getitem summary "video_id" = getitem video "id" /\
          val = published_value summary)
  | EvYield _ | EvFlush => False
  end.

(** The same when the key is moreover the identifier of the entity. *)
Definition event_with_entity_key (google_api_key video_item : value) (e : event) : Prop :=
  event_of_lookup google_api_key video_item e /\
  match e with
  | EvProduce topic key val =>
      exists video summary,
        served_to google_api_key key video /\
        summarise_video video = Ok summary /\
        getitem video "id" = Ok key /\
        getitem summary "video_id" = Ok key /\
        val = published_value summary
  | _ => True
  end.

End Appends.

(** ** What a whole run may show *)

(** The requests the script can build with a given API key: one of the
    two endpoints, with its fixed [part] selector. *)
Definition script_request (google_api_key : value) (r : request) : Prop :=
  exists id page_token,
    r = playlist_items_request google_api_key id page_token \/
    r = videos_request google_api_key id page_token.

Definition request_with_key (config : value) (e : event) : Prop :=
  match e with
  | EvGet r =>
      exists google_api_key,
        getitem config "google_api_key" = Ok google_api_key /\
        script_request google_api_key r
  | _ => True
  end.

(** The shape of a published value: the four fields, in this order, the
    three counts being integers. *)
Definition schema_shaped (val : value) : Prop :=
  exists title views likes comments,
    val = VDict [("TITLE", title); ("VIEWS", VInt views);
                 ("LIKES", VInt likes); ("COMMENTS", VInt comments)].

Definition publishes_schema_shaped (e : event) : Prop :=
  match e with
  | EvProduce topic _ val => topic = "youtube_videos" /\ schema_shaped val
  | EvYield _ => False
  | _ => True
  end.

Definition not_flush (e : event) : Prop := is_flush e = false.

(** The call to [produce] made for an entity whose summary is [summary]. *)
Definition record_of (key summary : value) : string * value * value :=
  ("youtube_videos", key, published_value summary).

(** A summary renamed in full, as a record to publish: its [video_id] as
    the key, its other fields under their published names as the value. *)
Definition renamed_record (summary : value) : result (string * value * value) :=
  result_map (fun video_id => record_of video_id summary) (getitem summary "video_id").

(** A producer that refuses every record. *)
Definition refusing_world (responses : request -> result response) : World mock :=
  {| requests_get := fun r w =>
       (responses r, {| served := S (served w); queue := queue w |});
     schema_registry_client := fun _ w => (Ok tt, w);
     get_latest_version := fun _ w => (Ok "schema", w);
     avro_serializer := fun _ w => (Ok tt, w);
     serializing_producer := fun _ w => (Ok tt, w);
     produce := fun _ _ _ w => (Raise (KafkaException "queue full"), w);
     flush := fun w => (Ok [], w) |}.

(** An empty playlist. *)
Definition empty_playlist (r : request) : result response :=
  ok_json (VDict [("items", VList [])]).

(** The first playlist page has one item and the cursor ["X"]; the
    request for the second page fails in transport.  The detail endpoint
    answers with no entity. *)
Definition second_page_fails (r : request) : result response :=
  if is_playlist_items r then
    match page_token_of r with
    | VNone => ok_json (VDict [("items", VList [playlist_item "a"]);
                               ("nextPageToken", VStr "X")])
    | _ => Raise (RequestException "connection reset")
    end
  else ok_json (VDict [("items", VList [])]).

(** The detail endpoint answers for every identifier with the two
    entities [video_a] and [video_b]. *)
Definition two_entities (r : request) : result response :=
  if is_playlist_items r then ok_json (VDict [("items", VList [playlist_item "a"])])
  else ok_json (VDict [("items", VList [video_a; video_b])]).

(** A playlist whose only item has [contentDetails] but no [videoId]. *)
Definition without_video_id (r : request) : result response :=
  ok_json (VDict [("items", VList [VDict [("contentDetails", VDict [])]])]).

(** An entity whose view count is present but null. *)
Definition video_null_views : value :=
  VDict [("id", VStr "n");
         ("snippet", VDict [("title", VStr "N")]);
         ("statistics", VDict [("viewCount", VNone)])].

(** An entity without a statistics object. *)
Definition video_without_statistics : value :=
  VDict [("id", VStr "s");
         ("snippet", VDict [("title", VStr "S")])].

(** The detail endpoint answers with three entities, the second of which
    has a null view count. *)
Definition rejected_in_the_middle (r : request) : result response :=
  if is_playlist_items r then ok_json (VDict [("items", VList [playlist_item "a"])])
  else ok_json (VDict [("items", VList [video_a; video_null_views; video_b])]).

(** What a recorded walk of the playlist [youtube_playlist_id] may show:
    requests for pages of that playlist, and items. *)
Definition playlist_walk_event (google_api_key youtube_playlist_id : value) (e : event)
  : Prop :=
  match e with
  | EvGet r =>
      exists page_token,
        r = playlist_items_request google_api_key youtube_playlist_id page_token
  | EvYield _ => True
  | EvProduce _ _ _ | EvFlush => False
  end.

(** The playlist ["PL"] holds the single reference ["a"]; the detail
    endpoint answers for ["a"] with the entity whose identifier is ["a"],
    and no other playlist or identifier is known. *)
Definition asked_for (r : request) : result response :=
  if is_playlist_items r then
    match dict_lookup "playlistId" (params r) with
    | Some (VStr "PL") => ok_json (VDict [("items", VList [playlist_item "a"])])
    | _ => Raise (RequestException "playlist not found")
    end
  else if is_videos r then
    match id_of r with
    | VStr "a" => ok_json (VDict [("items", VList [video_a])])
    | _ => ok_json (VDict [("items", VList [])])
    end
  else Raise (RequestException "unexpected endpoint").

(** Every request is answered with status 403 and a JSON body that has no
    [items] field. *)
Definition quota_exceeded_payload : value :=
  VDict [("error", VDict [("code", VInt 403); ("message", VStr "quotaExceeded")])].

Definition quota_exceeded (r : request) : result response :=
  Ok {| status_code := 403; text := Json quota_exceeded_payload |}.

(** An entity with neither identifier nor title, and a detail endpoint
    that answers with it. *)
Definition nameless_entity : value :=
  VDict [("statistics", VDict [("viewCount", VStr "5")])].

Definition serves_nameless (r : request) : result response :=
  if is_playlist_items r then ok_json (VDict [("items", VList [playlist_item "a"])])
  else ok_json (VDict [("items", VList [nameless_entity])]).

(** * Properties *)

(** ** [int] on strings *)

Example py_int_5 : py_int (VStr "5") = Ok (VInt 5).
Proof. reflexivity. Qed.

Example py_int_neg_padded : py_int (VStr " -1_000 ") = Ok (VInt (-1000)).
Proof. reflexivity. Qed.

Example py_int_bad : py_int (VStr "1__0") = Raise ValueError /\
                     py_int (VStr "") = Raise ValueError /\
                     py_int (VStr "12a") = Raise ValueError.
Proof. repeat split. Qed.

(** The separator U+001C is no white space for [int]; the no-break space
    U+00A0 is (bytes C2 A0), and ARABIC-INDIC DIGIT THREE U+0663 (bytes D9
    A3) is a digit. *)
Example py_int_unicode :
  py_int (VStr (String (ascii_of_nat 28) "5")) = Raise ValueError /\
  py_int (VStr (String (ascii_of_nat 194) (String (ascii_of_nat 160) "5"))) = Ok (VInt 5) /\
  py_int (VStr (String (ascii_of_nat 217) (String (ascii_of_nat 163) "7"))) = Ok (VInt 37).
Proof. repeat split. Qed.


(** ** Running computations *)

Section Running.
Context {W : Type} `{World W}.

Lemma bind_Ok {A B} (c : M W A) (k : A -> M W B) s a s' :
  c s = (Ok a, s') -> bind c k s = k a s'.
Proof. intros Hc. unfold bind. now rewrite Hc. Qed.

Lemma bind_Raise {A B} (c : M W A) (k : A -> M W B) s e s' :
  c s = (Raise e, s') -> bind c k s = (Raise e, s').
Proof. intros Hc. unfold bind. now rewrite Hc. Qed.

Lemma bind_lift {A B} (r : result A) (k : A -> M W B) s :
  bind (lift r) k s = match r with Ok a => k a s | Raise e => (Raise e, s) end.
Proof. unfold bind, lift. now destruct r. Qed.

Lemma bind_emit {B} (e : event) (k : unit -> M W B) s :
  bind (emit e) k s = k tt {| world := world s; trace := trace s ++ [e] |}.
Proof. reflexivity. Qed.

Lemma http_get_run (r : request) s :
  http_get r s =
  (fst (requests_get r (world s)),
   {| world := snd (requests_get r (world s)); trace := trace s ++ [EvGet r] |}).
Proof.
  unfold http_get. rewrite bind_emit. unfold call. simpl.
  now destruct (requests_get r (world s)).
Qed.

(** One page fetch is one request, logged whether it succeeds or not,
    followed by the decoding of the text. *)
Lemma fetch_playlist_items_page_run key pid tok s :
  fetch_playlist_items_page key pid tok s =
  let req := playlist_items_request key pid tok in
  (result_bind (fst (requests_get req (world s))) (fun resp => json_loads (text resp)),
   {| world := snd (requests_get req (world s)); trace := trace s ++ [EvGet req] |}).
Proof.
  unfold fetch_playlist_items_page, bind. rewrite http_get_run.
  destruct (fst (requests_get _ (world s))) as [resp|e]; simpl; [|reflexivity].
  unfold lift, ret. now destruct (json_loads (text resp)).
Qed.

Lemma fetch_videos_page_run key vid tok s :
  fetch_videos_page key vid tok s =
  let req := videos_request key vid tok in
  (result_bind (fst (requests_get req (world s))) (fun resp => json_loads (text resp)),
   {| world := snd (requests_get req (world s)); trace := trace s ++ [EvGet req] |}).
Proof.
  unfold fetch_videos_page, bind. rewrite http_get_run.
  destruct (fst (requests_get _ (world s))) as [resp|e]; simpl; [|reflexivity].
  unfold lift, ret. now destruct (json_loads (text resp)).
Qed.

(** Recording the items of a list appends them to the trace and touches
    nothing else. *)
Lemma for_each_record_yield (xs : list value) (s : state W) :
  for_each xs record_yield s =
  (Ok tt, {| world := world s; trace := trace s ++ map EvYield xs |}).
Proof.
  revert s. induction xs as [|x xs IH]; intros s; simpl.
  - unfold ret. rewrite app_nil_r. now destruct s.
  - unfold record_yield at 1. rewrite bind_emit, IH. simpl.
    now rewrite <- app_assoc.
Qed.

End Running.
Section WalkProps.
Context {W : Type} `{World W}.

(** What both generators do with a decoded payload, [continue] being
    the call made when the page carries a cursor. *)
Lemma payload_run (payload : value) (yield : value -> M W unit)
      (continue : value -> M W unit) s :
  (items <- lift (getitem payload "items") ;;
   yield_from items yield ;;;
   next_page_token <- lift (method_get payload "nextPageToken" VNone) ;;
   if is_none next_page_token then ret tt else continue next_page_token) s =
  match page_of payload with
  | Ok p => (for_each (page_items p) yield ;;;
             if is_none (page_next p) then ret tt else continue (page_next p)) s
  | Raise e => (Raise e, s)
  end.
Proof.
  rewrite bind_lift. unfold page_of.
  destruct payload; simpl; try reflexivity.
  destruct (dict_lookup "items" d) as [items|]; simpl; [|reflexivity].
  unfold yield_from.
  destruct (iter_value items) as [xs|e]; simpl.
  - destruct (dict_lookup "nextPageToken" d) as [next|]; simpl;
      unfold bind, lift; simpl;
      destruct (for_each xs yield s) as [[[]|e] s']; reflexivity.
  - unfold bind, lift. reflexivity.
Qed.

Lemma fetch_playlist_items_unfold depth key pid tok (yield : value -> M W unit) s :
  fetch_playlist_items (S depth) key pid tok yield s =
  let req := playlist_items_request key pid tok in
  let s1 := {| world := snd (requests_get req (world s));
               trace := trace s ++ [EvGet req] |} in
  match decoded (fst (requests_get req (world s))) with
  | Ok p => (for_each (page_items p) yield ;;;
             if is_none (page_next p) then ret tt
             else fetch_playlist_items depth key pid (page_next p) yield) s1
  | Raise e => (Raise e, s1)
  end.
Proof.
  simpl. unfold bind at 1. rewrite fetch_playlist_items_page_run. simpl.
  unfold decoded.
  destruct (fst (requests_get _ (world s))) as [resp|e]; simpl; [|reflexivity].
  destruct (json_loads (text resp)) as [payload|e]; simpl; [|reflexivity].
  apply payload_run.
Qed.

Lemma fetch_videos_unfold depth key vid tok (yield : value -> M W unit) s :
  fetch_videos (S depth) key vid tok yield s =
  let req := videos_request key vid tok in
  let s1 := {| world := snd (requests_get req (world s));
               trace := trace s ++ [EvGet req] |} in
  match decoded (fst (requests_get req (world s))) with
  | Ok p => (for_each (page_items p) yield ;;;
             if is_none (page_next p) then ret tt
             else fetch_playlist_items depth key vid (page_next p) yield) s1
  | Raise e => (Raise e, s1)
  end.
Proof.
  simpl. unfold bind at 1. rewrite fetch_videos_page_run. simpl.
  unfold decoded.
  destruct (fst (requests_get _ (world s))) as [resp|e]; simpl; [|reflexivity].
  destruct (json_loads (text resp)) as [payload|e]; simpl; [|reflexivity].
  apply payload_run.
Qed.


(** When the answers of the source API are a fixed mapping of the
    requests, two walks show the same events and end alike, whatever the
    worlds they start in. *)
Lemma fetch_playlist_items_by_mapping (responses : request -> result response) :
  (forall r w, fst (requests_get r w) = responses r) ->
  forall depth key pid tok w1 w2 tr1 tr2,
  exists evs r w1' w2',
    fetch_playlist_items depth key pid tok record_yield {| world := w1; trace := tr1 |}
      = (r, {| world := w1'; trace := tr1 ++ evs |}) /\
    fetch_playlist_items depth key pid tok record_yield {| world := w2; trace := tr2 |}
      = (r, {| world := w2'; trace := tr2 ++ evs |}).
Proof.
  intros Hmap. induction depth as [|depth IH]; intros key pid tok w1 w2 tr1 tr2.
  - exists [], (Raise RecursionError), w1, w2. simpl. unfold lift.
    now rewrite !app_nil_r.
  - rewrite !fetch_playlist_items_unfold. simpl. rewrite !Hmap.
    destruct (decoded (responses _)) as [p|e].
    + unfold bind. rewrite !for_each_record_yield. simpl.
      destruct (is_none (page_next p)).
      * do 4 eexists. unfold ret. rewrite <- !app_assoc. split; reflexivity.
      * destruct (IH key pid (page_next p)
                    (snd (requests_get (playlist_items_request key pid tok) w1))
                    (snd (requests_get (playlist_items_request key pid tok) w2))
                    ((tr1 ++ [EvGet (playlist_items_request key pid tok)])
                       ++ map EvYield (page_items p))%list
                    ((tr2 ++ [EvGet (playlist_items_request key pid tok)])
                       ++ map EvYield (page_items p))%list)
          as (evs & r & w1' & w2' & E1 & E2).
        rewrite E1, E2. do 4 eexists. rewrite <- !app_assoc. split; reflexivity.
    + do 4 eexists. split; reflexivity.
Qed.
End WalkProps.

(** ** Summaries *)

Lemma py_int_is_int x v : py_int x = Ok v -> exists z, v = VInt z.
Proof.
  destruct x as [|b|z|f|str|l|d]; simpl; try discriminate.
  - intros [= <-]. eauto.
  - intros [= <-]. eauto.
  - destruct (int_of_float f); simpl; [intros [= <-]; eauto | discriminate].
  - destruct (int_of_str str); [intros [= <-]; eauto | discriminate].
Qed.

Lemma statistic_is_int video name v :
  statistic video name = Ok v -> exists z, v = VInt z.
Proof.
  unfold statistic.
  destruct (getitem video "statistics") as [st|]; simpl; [|discriminate].
  destruct (method_get st name (VInt 0)) as [x|]; simpl; [|discriminate].
  apply py_int_is_int.
Qed.

Lemma statistic_absent video st name :
  getitem video "statistics" = Ok (VDict st) ->
  dict_lookup name st = None ->
  statistic video name = Ok (VInt 0).
Proof.
  intros Hst Hname. unfold statistic. rewrite Hst. simpl. now rewrite Hname.
Qed.

(** The shape of every summary. *)
Lemma summarise_video_Ok video summary :
  summarise_video video = Ok summary ->
  exists video_id title views likes comments,
    getitem video "id" = Ok video_id /\
    snippet_title video = Ok title /\
    statistic video "viewCount" = Ok (VInt views) /\
    statistic video "likeCount" = Ok (VInt likes) /\
    statistic video "commentCount" = Ok (VInt comments) /\
    summary = VDict [("video_id", video_id); ("title", title); ("views", VInt views);
                     ("likes", VInt likes); ("comments", VInt comments)].
Proof.
  unfold summarise_video.
  destruct (getitem video "id") as [video_id|]; simpl; [|discriminate].
  destruct (snippet_title video) as [title|]; simpl; [|discriminate].
  destruct (statistic video "viewCount") as [views|] eqn:Ev; simpl; [|discriminate].
  destruct (statistic video "likeCount") as [likes|] eqn:El; simpl; [|discriminate].
  destruct (statistic video "commentCount") as [comments|] eqn:Ec; simpl; [|discriminate].
  destruct (statistic_is_int _ _ _ Ev) as [v ->].
  destruct (statistic_is_int _ _ _ El) as [l ->].
  destruct (statistic_is_int _ _ _ Ec) as [c ->].
  intros [= <-]. now exists video_id, title, v, l, c.
Qed.

Lemma produce_calls_app tr1 tr2 :
  produce_calls (tr1 ++ tr2) = (produce_calls tr1 ++ produce_calls tr2)%list.
Proof.
  induction tr1 as [|[] tr1 IH]; simpl; rewrite ?IH; reflexivity.
Qed.

Lemma main_value_with_id video video_id :
  getitem video "id" = Ok video_id ->
  main_value video = result_map published_value (summarise_video video).
Proof.
  intros Hid. unfold main_value, summarise_video. rewrite Hid. simpl.
  destruct (snippet_title video); simpl; [|reflexivity].
  destruct (statistic video "viewCount"); simpl; [|reflexivity].
  destruct (statistic video "likeCount"); simpl; [|reflexivity].
  destruct (statistic video "commentCount"); simpl; reflexivity.
Qed.

Lemma main_value_of_summary video summary :
  summarise_video video = Ok summary ->
  main_value video = Ok (published_value summary).
Proof.
  intros Hsum.
  destruct (summarise_video_Ok _ _ Hsum) as (video_id & _ & _ & _ & _ & Hid & _).
  rewrite (main_value_with_id _ _ Hid), Hsum. reflexivity.
Qed.

Section Publication.
Context {W : Type} `{World W}.

(** What the inner loop body does for an entity [summarise_video]
    accepts: one call to [produce], with the value [main] builds. *)
Lemma main_for_video_run video_id video summary val (s : state W) :
  summarise_video video = Ok summary ->
  main_value video = Ok val ->
  main_for_video video_id video s =
  (fst (produce "youtube_videos" video_id val (world s)),
   {| world := snd (produce "youtube_videos" video_id val (world s));
      trace := trace s ++ [EvProduce "youtube_videos" video_id val] |}).
Proof.
  intros Hsum Hval. unfold main_for_video.
  rewrite bind_lift, Hsum, bind_lift, Hval, bind_emit. unfold call. simpl.
  now destruct (produce _ _ _ (world s)).
Qed.

(** When [summarise_video] or the construction of the value raises,
    nothing is handed to the producer. *)
Lemma main_for_video_raises video_id video (s : state W) :
  (exists e, summarise_video video = Raise e) \/ (exists e, main_value video = Raise e) ->
  exists e, main_for_video video_id video s = (Raise e, s).
Proof.
  unfold main_for_video. rewrite bind_lift.
  intros [[e He]|[e He]].
  - rewrite He. eauto.
  - destruct (summarise_video video); [|eauto].
    rewrite bind_lift, He. eauto.
Qed.

End Publication.


Section Claims_on_summaries.
Context {W : Type} `{World W}.

(** C10, as amended.  The value [main] publishes for an entity is the
    summary [summarise_video] computes for it with the fields renamed
    (title to TITLE, views to VIEWS, likes to LIKES, comments to
    COMMENTS): on an entity that has an [id] the two computations agree,
    exceptions included, and when [summarise_video] returns a summary the
    loop body hands exactly the renamed fields to the producer.  The
    identifier of the summary is not a field of the value; the key is the
    one the loop body is run with, so that the published record is the
    summary renamed in full, [video_id] to the key included, exactly when
    that key is the entity's [id]. *)
Theorem main_value_refines_summarise_video video video_id :
  getitem video "id" = Ok video_id ->
  main_value video = result_map published_value (summarise_video video) /\
  (forall summary key (s : state W),
      summarise_video video = Ok summary ->
      trace (snd (main_for_video key video s)) =
      (trace s ++ [EvProduce "youtube_videos" key (published_value summary)])%list) /\
  (forall summary key (s : state W),
      summarise_video video = Ok summary ->
      renamed_record summary = Ok (record_of video_id summary) /\
      produce_calls (trace (snd (main_for_video key video s))) =
      (produce_calls (trace s) ++ [record_of key summary])%list /\
      (record_of key summary = record_of video_id summary <-> key = video_id)).
Proof.
  intros Hid. split; [now apply main_value_with_id with video_id|].
  assert (Hrun : forall summary key (s : state W),
             summarise_video video = Ok summary ->
             trace (snd (main_for_video key video s)) =
             (trace s ++ [EvProduce "youtube_videos" key (published_value summary)])%list).
  { intros summary key s Hsum.
    rewrite (main_for_video_run key video summary (published_value summary));
      auto using main_value_of_summary. }
  split; [exact Hrun|].
  intros summary key s Hsum. split; [|split].
  - destruct (summarise_video_Ok _ _ Hsum)
      as (i & ? & ? & ? & ? & Hi & _ & _ & _ & _ & E).
    rewrite Hid in Hi. injection Hi as <-. rewrite E. reflexivity.
  - rewrite (Hrun summary key s Hsum), produce_calls_app. reflexivity.
  - unfold record_of. split; [intros [= ->]|intros ->]; reflexivity.
Qed.

(** C4.  When the statistics object of an entity lacks [viewCount],
    [likeCount] or [commentCount], the summary and the published value
    carry the integer 0 in the corresponding field; and whatever the
    statistics, the three count fields of a summary and of a published
    value are present and are integers, never [None]. *)
Theorem missing_statistics_are_zero video st summary :
  getitem video "statistics" = Ok (VDict st) ->
  summarise_video video = Ok summary ->
  exists val views likes comments,
    main_value video = Ok val /\
    (forall key (s : state W),
        produce_calls (trace (snd (main_for_video key video s))) =
        (produce_calls (trace s) ++ [("youtube_videos", key, val)])%list) /\
    getitem summary "views" = Ok (VInt views) /\
    getitem summary "likes" = Ok (VInt likes) /\
    getitem summary "comments" = Ok (VInt comments) /\
    getitem val "VIEWS" = Ok (VInt views) /\
    getitem val "LIKES" = Ok (VInt likes) /\
    getitem val "COMMENTS" = Ok (VInt comments) /\
    (dict_lookup "viewCount" st = None -> views = 0) /\
    (dict_lookup "likeCount" st = None -> likes = 0) /\
    (dict_lookup "commentCount" st = None -> comments = 0).
Proof.
  intros Hst Hsum.
  destruct (summarise_video_Ok _ _ Hsum)
    as (video_id & title & views & likes & comments & Hid & Ht & Hv & Hl & Hc & ->).
  exists (published_value
            (VDict [("video_id", video_id); ("title", title); ("views", VInt views);
                    ("likes", VInt likes); ("comments", VInt comments)])),
    views, likes, comments.
  split; [now apply main_value_of_summary|].
  split.
  { intros key s.
    erewrite main_for_video_run; eauto using main_value_of_summary.
    simpl. now rewrite produce_calls_app. }
  repeat split; try reflexivity.
  - intros Habs. rewrite (statistic_absent _ _ _ Hst Habs) in Hv. congruence.
  - intros Habs. rewrite (statistic_absent _ _ _ Hst Habs) in Hl. congruence.
  - intros Habs. rewrite (statistic_absent _ _ _ Hst Habs) in Hc. congruence.
Qed.

(** C9.  The delivery callback does nothing and raises nothing, whatever
    the error and the record it is called with; so [flush], which serves
    the delivery reports to it, completes normally whenever the producer
    itself does, failed deliveries or not, leaving no other mark than the
    call to [flush]. *)
Theorem on_delivery_ignores_everything :
  (forall (E R : Type) (err : E) (record : R) (s : state W),
      on_delivery err record s = (Ok tt, s)) /\
  (forall (s : state W) reports w',
      flush (world s) = (Ok reports, w') ->
      producer_flush s = (Ok tt, {| world := w'; trace := trace s ++ [EvFlush] |})).
Proof.
  split; [reflexivity|].
  intros s reports w' Hflush. unfold producer_flush.
  rewrite bind_emit. unfold bind, call. simpl. rewrite Hflush.
  generalize (trace s ++ [EvFlush])%list. clear.
  induction reports as [|r reports IH]; intros tr; simpl; [reflexivity|].
  unfold bind, on_delivery, ret. simpl. apply IH.
Qed.

End Claims_on_summaries.

(** ** What a computation can add to the trace *)

Create HintDb appends.

Section AppendsProps.
Context {W : Type} `{World W}.

Lemma appends_ret {A} P (a : A) : appends_only P (ret (W := W) a).
Proof. intros s. exists []. simpl. now rewrite app_nil_r. Qed.

Lemma appends_lift {A} P (r : result A) : appends_only P (lift (W := W) r).
Proof. intros s. exists []. simpl. now rewrite app_nil_r. Qed.

Lemma appends_call {A} P (op : W -> result A * W) : appends_only P (call op).
Proof.
  intros s. exists []. unfold call. destruct (op (world s)). simpl.
  now rewrite app_nil_r.
Qed.

Lemma appends_emit P (e : event) : P e -> appends_only P (emit (W := W) e).
Proof. intros He s. exists [e]. simpl. auto. Qed.

Lemma appends_bind {A B} P (c : M W A) (k : A -> M W B) :
  appends_only P c -> (forall a, appends_only P (k a)) -> appends_only P (bind c k).
Proof.
  intros Hc Hk s. unfold bind.
  destruct (Hc s) as (evs & Etr & Hevs).
  destruct (c s) as [[a|e] s1]; simpl in Etr.
  - destruct (Hk a s1) as (evs' & Etr' & Hevs').
    exists (evs ++ evs')%list. rewrite Etr', Etr, app_assoc. split; [reflexivity|].
    apply Forall_app. auto.
  - exists evs. auto.
Qed.

Lemma appends_for_each {A} P (xs : list A) (body : A -> M W unit) :
  (forall x, appends_only P (body x)) -> appends_only P (for_each xs body).
Proof.
  intros Hbody. induction xs as [|x xs IH]; simpl.
  - apply appends_ret.
  - apply appends_bind; auto.
Qed.

Lemma appends_if {A} P (b : bool) (c1 c2 : M W A) :
  appends_only P c1 -> appends_only P c2 -> appends_only P (if b then c1 else c2).
Proof. now destruct b. Qed.

Hint Resolve appends_ret appends_lift appends_call appends_emit appends_for_each
     appends_if : appends.

Ltac appends :=
  repeat first [ apply appends_bind; [|intros ?]
               | solve [auto with appends] ].

Lemma appends_fetch_playlist_items P depth key pid tok (yield : value -> M W unit) :
  (forall r, P (EvGet r)) ->
  (forall x, appends_only P (yield x)) ->
  appends_only P (fetch_playlist_items depth key pid tok yield).
Proof.
  intros Hget Hyield. revert tok.
  induction depth as [|depth IH]; intros tok; simpl.
  - appends.
  - unfold fetch_playlist_items_page, http_get, yield_from. appends.
Qed.

Lemma appends_fetch_videos P depth key vid tok (yield : value -> M W unit) :
  (forall r, P (EvGet r)) ->
  (forall x, appends_only P (yield x)) ->
  appends_only P (fetch_videos depth key vid tok yield).
Proof.
  intros Hget Hyield. destruct depth as [|depth]; simpl.
  - appends.
  - unfold fetch_videos_page, http_get, yield_from. appends.
    apply appends_if; [appends|]. now apply appends_fetch_playlist_items.
Qed.

Lemma nothing_appended {A} (c : M W A) s :
  appends_only (fun _ => False) c -> trace (snd (c s)) = trace s.
Proof.
  intros Hc. destruct (Hc s) as ([|e evs] & Etr & Hevs).
  - now rewrite app_nil_r in Etr.
  - inversion Hevs. contradiction.
Qed.

Lemma main_setup_trace config (s : state W) :
  trace (snd (main_setup config s)) = trace s.
Proof. apply nothing_appended. unfold main_setup. appends. Qed.

Lemma producer_flush_trace (s : state W) :
  trace (snd (producer_flush s)) = (trace s ++ [EvFlush])%list.
Proof.
  unfold producer_flush. rewrite bind_emit.
  set (s1 := {| world := world s; trace := trace s ++ [EvFlush] |}).
  change (trace s ++ [EvFlush])%list with (trace s1).
  apply (nothing_appended
           (reports <- call flush ;;
            for_each reports
              (fun r => on_delivery (delivery_err r) (delivery_key r, delivery_value r)))).
  appends. apply appends_for_each. intros r. unfold on_delivery. appends.
Qed.

End AppendsProps.

Section Runs.
Context {W : Type} `{World W}.

Lemma unreadable_decoded r : unreadable r = true -> exists e, decoded r = Raise e.
Proof.
  unfold unreadable, decoded. destruct r as [resp|e]; simpl; [|eauto].
  destruct (text resp) as [payload|raw]; simpl; [|eauto].
  unfold page_of. destruct (getitem payload "items"); simpl; [discriminate|eauto].
Qed.

Lemma main_run config depth (s0 s1 : state W) key pid :
  main_setup config s0 = (Ok (key, pid), s1) ->
  main config depth s0 =
  (fetch_playlist_items depth key pid VNone (main_for_video_item depth key) ;;;
   producer_flush) s1 /\ trace s1 = trace s0.
Proof.
  intros Hsetup. split.
  - unfold main. now rewrite (bind_Ok _ _ _ _ _ Hsetup).
  - rewrite <- (main_setup_trace config s0), Hsetup. reflexivity.
Qed.

Lemma main_for_video_item_run depth key video_item content_details video_id
      (s : state W) :
  getitem video_item "contentDetails" = Ok content_details ->
  getitem content_details "videoId" = Ok video_id ->
  main_for_video_item depth key video_item s =
  fetch_videos depth key video_id VNone (main_for_video video_id) s.
Proof.
  intros Hcd Hid. unfold main_for_video_item.
  now rewrite bind_lift, Hcd, bind_lift, Hid.
Qed.

(** C6, as amended.  If the first request of the walk raises, or its
    answer has a body that is not JSON, or a body that decodes to a
    payload whose [items] cannot be read, whatever the status of the
    answer, then [main] raises, the only event after the setup being that
    request: nothing was handed to the producer and [flush] was not
    called. *)
Theorem unreadable_first_page_aborts config depth (s0 s1 : state W) key pid :
  main_setup config s0 = (Ok (key, pid), s1) ->
  (1 <= depth)%nat ->
  unreadable (fst (requests_get (playlist_items_request key pid VNone) (world s1))) = true ->
  exists e,
    main config depth s0 =
    (Raise e,
     {| world := snd (requests_get (playlist_items_request key pid VNone) (world s1));
        trace := trace s0 ++ [EvGet (playlist_items_request key pid VNone)] |}).
Proof.
  intros Hsetup Hdepth Hbad.
  destruct (main_run config depth s0 s1 key pid Hsetup) as [-> Htr].
  destruct depth as [|depth]; [lia|].
  destruct (unreadable_decoded _ Hbad) as [e He].
  exists e. unfold bind. rewrite fetch_playlist_items_unfold. simpl.
  rewrite He, Htr. reflexivity.
Qed.

(** C3.  When the playlist is the single page [items = [a]] without
    cursor and the detail endpoint answers for ["a"] with the single
    entity [{id: "a", snippet: {title: "T"}, statistics: {viewCount:
    "5"}}] without cursor, the run makes exactly one call to [produce],
    with key ["a"] and value [{TITLE: "T", VIEWS: 5, LIKES: 0,
    COMMENTS: 0}]. *)
Theorem single_video_is_published_once config depth (s0 s1 : state W) key pid resp1 resp2 :
  main_setup config s0 = (Ok (key, pid), s1) ->
  (1 <= depth)%nat ->
  fst (requests_get (playlist_items_request key pid VNone) (world s1)) = Ok resp1 ->
  text resp1 = Json (VDict [("items", VList [playlist_item "a"])]) ->
  fst (requests_get (videos_request key (VStr "a") VNone)
         (snd (requests_get (playlist_items_request key pid VNone) (world s1))))
    = Ok resp2 ->
  text resp2 = Json (VDict [("items", VList [video_a])]) ->
  produce_calls (trace (snd (main config depth s0))) =
  (produce_calls (trace s0) ++
   [("youtube_videos", VStr "a",
     VDict [("TITLE", VStr "T"); ("VIEWS", VInt 5);
            ("LIKES", VInt 0); ("COMMENTS", VInt 0)])])%list.
Proof.
  intros Hsetup Hdepth H1 T1 H2 T2.
  destruct (main_run config depth s0 s1 key pid Hsetup) as [-> Htr].
  destruct depth as [|depth]; [lia|].
  unfold bind at 1. rewrite fetch_playlist_items_unfold. simpl.
  unfold decoded. rewrite H1. simpl. rewrite T1. simpl.
  unfold bind at 1. unfold bind at 1.
  rewrite (main_for_video_item_run (S depth) key (playlist_item "a")
             (VDict [("videoId", VStr "a")]) (VStr "a")) by reflexivity.
  rewrite fetch_videos_unfold. simpl. unfold decoded. rewrite H2. simpl. rewrite T2.
  simpl. unfold bind at 1. unfold bind at 1.
  rewrite (main_for_video_run (VStr "a") video_a
             (VDict [("video_id", VStr "a"); ("title", VStr "T"); ("views", VInt 5);
                     ("likes", VInt 0); ("comments", VInt 0)])
             (VDict [("TITLE", VStr "T"); ("VIEWS", VInt 5);
                     ("LIKES", VInt 0); ("COMMENTS", VInt 0)]))
    by reflexivity.
  simpl.
  destruct (fst (produce _ _ _ _)) as [[]|e]; simpl.
  - rewrite producer_flush_trace. simpl. rewrite Htr.
    rewrite !produce_calls_app. simpl. rewrite !app_nil_r. reflexivity.
  - rewrite Htr. rewrite !produce_calls_app. simpl. rewrite !app_nil_r. reflexivity.
Qed.
End Runs.

Section Failures.
Context {W : Type} `{World W}.

Lemma summarise_video_without_id video e :
  getitem video "id" = Raise e -> summarise_video video = Raise e.
Proof. intros Hid. unfold summarise_video. now rewrite Hid. Qed.

Lemma summarise_video_without_title video video_id e :
  getitem video "id" = Ok video_id ->
  snippet_title video = Raise e ->
  summarise_video video = Raise e.
Proof. intros Hid Ht. unfold summarise_video. now rewrite Hid, Ht. Qed.

Lemma main_for_video_summary_raises key video e (s : state W) :
  summarise_video video = Raise e -> main_for_video key video s = (Raise e, s).
Proof. intros Hsum. unfold main_for_video. now rewrite bind_lift, Hsum. Qed.

(** C8.  When the answers of the source API are a fixed mapping of the
    requests, two independent walks of a playlist, started in any two
    worlds (the second may start where the first ended), end with the
    same outcome and yield the same items in the same order. *)
Theorem fetch_playlist_items_idempotent (responses : request -> result response) :
  (forall r w, fst (requests_get r w) = responses r) ->
  forall depth key pid (w1 w2 : W),
    fst (fetch_playlist_items depth key pid VNone record_yield
           {| world := w1; trace := [] |}) =
    fst (fetch_playlist_items depth key pid VNone record_yield
           {| world := w2; trace := [] |}) /\
    yielded (trace (snd (fetch_playlist_items depth key pid VNone record_yield
                           {| world := w1; trace := [] |}))) =
    yielded (trace (snd (fetch_playlist_items depth key pid VNone record_yield
                           {| world := w2; trace := [] |}))).
Proof.
  intros Hmap depth key pid w1 w2.
  destruct (fetch_playlist_items_by_mapping responses Hmap depth key pid VNone w1 w2 [] [])
    as (evs & r & w1' & w2' & -> & ->).
  split; reflexivity.
Qed.
End Failures.

(** C1.  The claim is that a detail page with a cursor is followed by a
    request to the detail endpoint.  Here the detail endpoint answers for
    ["a"] with one entity and the cursor ["X"]: the second request of
    [fetch_videos] goes to the playlist endpoint, with the video identifier
    as [playlistId], and the second item yielded is a playlist item
    reference, not an entity. *)
Theorem fetch_videos_continues_on_playlist_endpoint :
  @fetch_videos mock (mock_world detail_with_cursor (fun _ => false))
     5 (VStr "k") (VStr "a") VNone
     (@record_yield mock) mock_init =
  (Ok tt,
   {| world := {| served := 2; queue := [] |};
      trace := [EvGet (videos_request (VStr "k") (VStr "a") VNone);
                EvYield video_a;
                EvGet (playlist_items_request (VStr "k") (VStr "a") (VStr "X"));
                EvYield (playlist_item "z")] |}).
Proof. reflexivity. Qed.

(** C6 does not hold as stated: an answer with an error status whose body
    is JSON with an [items] field is walked like any other, and the run
    ends normally, [flush] included. *)
Lemma error_status_alone_does_not_abort :
  is_http_error (error_status_with_items
                   (playlist_items_request (VStr "k") (VStr "PL") VNone)) = true /\
  @main mock (mock_world error_status_with_items (fun _ => false)) mock_config 5 mock_init =
  (Ok tt,
   {| world := {| served := 1; queue := [] |};
      trace := [EvGet (playlist_items_request (VStr "k") (VStr "PL") VNone); EvFlush] |}).
Proof. split; reflexivity. Qed.

(** C5 does not hold as stated: the key is the [videoId] of the playlist
    item, here ["a"] for an entity whose identifier is ["b"], and an empty
    [videoId] is published as an empty key. *)
Lemma published_key_is_not_entity_id :
  produce_calls
    (trace (snd (@main mock (mock_world mismatched_ids (fun _ => false))
                   mock_config 5 mock_init))) =
  [("youtube_videos", VStr "a", published_value
      (VDict [("video_id", VStr "b"); ("title", VStr "B"); ("views", VInt 0);
              ("likes", VInt 0); ("comments", VInt 0)]));
   ("youtube_videos", VStr "", published_value
      (VDict [("video_id", VStr ""); ("title", VStr "U"); ("views", VInt 0);
              ("likes", VInt 0); ("comments", VInt 0)]))] /\
  summarise_video video_b =
    Ok (VDict [("video_id", VStr "b"); ("title", VStr "B"); ("views", VInt 0);
               ("likes", VInt 0); ("comments", VInt 0)]) /\
  getitem video_b "id" = Ok (VStr "b") /\
  VStr "a" <> VStr "b".
Proof. repeat split; try reflexivity. discriminate. Qed.

(** ** The theorems at work on the test double *)


Lemma single_video_is_published_once_witness :
  produce_calls
    (trace (snd (@main mock (mock_world single_video quiet) mock_config 5 mock_init))) =
  [("youtube_videos", VStr "a",
    VDict [("TITLE", VStr "T"); ("VIEWS", VInt 5); ("LIKES", VInt 0); ("COMMENTS", VInt 0)])].
Proof.
  apply (@single_video_is_published_once mock (mock_world single_video quiet)
           mock_config 5 mock_init mock_init (VStr "k") (VStr "PL")
           {| status_code := 200; text := Json (VDict [("items", VList [playlist_item "a"])]) |}
           {| status_code := 200; text := Json (VDict [("items", VList [video_a])]) |});
    try reflexivity.
  lia.
Defined.

Lemma missing_statistics_are_zero_witness :
  exists val likes comments,
    main_value video_a = Ok val /\
    getitem val "LIKES" = Ok (VInt likes) /\
    getitem val "COMMENTS" = Ok (VInt comments) /\
    likes = 0 /\ comments = 0.
Proof.
  destruct (@missing_statistics_are_zero mock (mock_world single_video quiet)
              video_a [("viewCount", VStr "5")]
              (VDict [("video_id", VStr "a"); ("title", VStr "T"); ("views", VInt 5);
                      ("likes", VInt 0); ("comments", VInt 0)])
              eq_refl eq_refl)
    as (val & views & likes & comments & Hval & _ & _ & _ & _ & _ & Hl & Hc & _ & Hl0 & Hc0).
  exists val, likes, comments. repeat split; auto.
Defined.

Lemma unreadable_first_page_aborts_witness :
  exists e,
    @main mock (mock_world error_status_html quiet) mock_config 5 mock_init =
    (Raise e,
     {| world := {| served := 1; queue := [] |};
        trace := [EvGet (playlist_items_request (VStr "k") (VStr "PL") VNone)] |}).
Proof.
  apply (@unreadable_first_page_aborts mock (mock_world error_status_html quiet)
           mock_config 5 mock_init mock_init (VStr "k") (VStr "PL")).
  - reflexivity.
  - lia.
  - reflexivity.
Defined.

Lemma fetch_playlist_items_idempotent_witness :
  yielded (trace (snd (@fetch_playlist_items mock (mock_world two_pages quiet)
                         5 (VStr "k") (VStr "PL") VNone (@record_yield mock)
                         {| world := {| served := 0; queue := [] |}; trace := [] |}))) =
  yielded (trace (snd (@fetch_playlist_items mock (mock_world two_pages quiet)
                         5 (VStr "k") (VStr "PL") VNone (@record_yield mock)
                         {| world := {| served := 2; queue := [] |}; trace := [] |}))).
Proof.
  apply (@fetch_playlist_items_idempotent mock (mock_world two_pages quiet) two_pages).
  intros r w. reflexivity.
Defined.

Lemma on_delivery_ignores_everything_witness :
  @producer_flush mock (mock_world single_video (fun _ => true))
     {| world := {| served := 2; queue := [(VStr "a", VDict [])] |}; trace := [] |} =
  (Ok tt, {| world := {| served := 2; queue := [] |}; trace := [EvFlush] |}).
Proof.
  apply (proj2 (@on_delivery_ignores_everything mock (mock_world single_video (fun _ => true)))
           {| world := {| served := 2; queue := [(VStr "a", VDict [])] |}; trace := [] |}
           [ {| delivery_err := Some "delivery failed";
                delivery_key := VStr "a"; delivery_value := VDict [] |} ]).
  reflexivity.
Defined.

Lemma main_value_refines_summarise_video_witness :
  main_value video_a = result_map published_value (summarise_video video_a).
Proof.
  apply (@main_value_refines_summarise_video mock (mock_world single_video quiet)
           video_a (VStr "a")).
  reflexivity.
Defined.

(** * Further properties of the script *)

(** ** Invariants of a whole run *)

Section Whole_runs.
Context {W : Type} `{World W}.

Lemma appends_bind_lift {A B} P (r : result A) (k : A -> M W B) :
  (forall a, r = Ok a -> appends_only P (k a)) -> appends_only P (bind (lift r) k).
Proof.
  intros Hk s. rewrite bind_lift. destruct r as [a|e].
  - now apply Hk.
  - exists []. simpl. now rewrite app_nil_r.
Qed.

Lemma appends_bind_call {A B} P (op : W -> result A * W) (k : A -> M W B) :
  (forall a, appends_only P (k a)) -> appends_only P (bind (call op) k).
Proof. intros Hk. apply appends_bind; [apply appends_call | exact Hk]. Qed.

(** The walk of one playlist only asks for pages of that playlist. *)
Lemma appends_playlist_walk P depth key pid tok (yield : value -> M W unit) :
  (forall page_token, P (EvGet (playlist_items_request key pid page_token))) ->
  (forall x, appends_only P (yield x)) ->
  appends_only P (fetch_playlist_items depth key pid tok yield).
Proof.
  intros Hget Hyield. revert tok.
  induction depth as [|depth IH]; intros tok; simpl.
  - apply appends_lift.
  - unfold fetch_playlist_items_page, http_get, yield_from.
    repeat (apply appends_bind; [|intros ?]);
      auto using appends_emit, appends_call, appends_lift, appends_ret,
                 appends_for_each, appends_if.
Qed.

Lemma appends_videos_walk P depth key vid tok (yield : value -> M W unit) :
  (forall page_token, P (EvGet (videos_request key vid page_token))) ->
  (forall page_token, P (EvGet (playlist_items_request key vid page_token))) ->
  (forall x, appends_only P (yield x)) ->
  appends_only P (fetch_videos depth key vid tok yield).
Proof.
  intros Hget Hget' Hyield. destruct depth as [|depth]; simpl.
  - apply appends_lift.
  - unfold fetch_videos_page, http_get, yield_from.
    repeat (apply appends_bind; [|intros ?]);
      auto using appends_emit, appends_call, appends_lift, appends_ret,
                 appends_for_each, appends_if, appends_playlist_walk.
Qed.

Lemma appends_inner_body P video_id video :
  (forall summary, summarise_video video = Ok summary ->
                   P (EvProduce "youtube_videos" video_id (published_value summary))) ->
  appends_only P (main_for_video video_id video).
Proof.
  intros Hp. unfold main_for_video.
  apply appends_bind_lift. intros summary Hsum.
  apply appends_bind_lift. intros val Hval.
  rewrite (main_value_of_summary _ _ Hsum) in Hval. injection Hval as <-.
  apply appends_bind; [apply appends_emit; auto | intros _; apply appends_call].
Qed.

Lemma appends_outer_body P depth key video_item :
  (forall id page_token, P (EvGet (playlist_items_request key id page_token))) ->
  (forall id page_token, P (EvGet (videos_request key id page_token))) ->
  (forall video_id video summary,
      summarise_video video = Ok summary ->
      P (EvProduce "youtube_videos" video_id (published_value summary))) ->
  appends_only P (main_for_video_item depth key video_item).
Proof.
  intros Hpl Hvd Hp. unfold main_for_video_item.
  apply appends_bind_lift. intros content_details _.
  apply appends_bind_lift. intros video_id _.
  apply appends_videos_walk; auto.
  intros video. apply appends_inner_body. eauto.
Qed.

Lemma appends_loop P depth key pid :
  (forall id page_token, P (EvGet (playlist_items_request key id page_token))) ->
  (forall id page_token, P (EvGet (videos_request key id page_token))) ->
  (forall video_id video summary,
      summarise_video video = Ok summary ->
      P (EvProduce "youtube_videos" video_id (published_value summary))) ->
  appends_only P (fetch_playlist_items depth key pid VNone (main_for_video_item depth key)).
Proof.
  intros Hpl Hvd Hp. apply appends_playlist_walk; auto.
  intros x. now apply appends_outer_body.
Qed.

(** What [main_setup] returns is what the configuration holds. *)
Lemma main_setup_Ok config (s s1 : state W) key pid :
  main_setup config s = (Ok (key, pid), s1) ->
  getitem config "google_api_key" = Ok key /\
  getitem config "youtube_playlist_id" = Ok pid.
Proof.
  unfold main_setup. rewrite bind_lift.
  destruct (getitem config "schema_registry") as [registry|]; [|discriminate].
  unfold bind at 1. destruct (call _ s) as [[[]|] s2]; [|discriminate].
  unfold bind at 1. destruct (call _ s2) as [[schema_str|] s3]; [|discriminate].
  rewrite bind_lift.
  destruct (getitem config "kafka") as [kafka|]; [|discriminate].
  unfold bind at 1. destruct (call _ s3) as [[[]|] s4]; [|discriminate].
  rewrite bind_lift.
  destruct (kafka_config kafka) as [kafka'|]; [|discriminate].
  unfold bind at 1. destruct (call _ s4) as [[[]|] s5]; [|discriminate].
  rewrite bind_lift.
  destruct (getitem config "google_api_key") as [k|]; [|discriminate].
  rewrite bind_lift.
  destruct (getitem config "youtube_playlist_id") as [p|]; [|discriminate].
  unfold ret. intros [= -> -> _]. auto.
Qed.

Lemma appends_weaken {A} (P Q : event -> Prop) (c : M W A) :
  (forall e, P e -> Q e) -> appends_only P c -> appends_only Q c.
Proof.
  intros HPQ Hc s. destruct (Hc s) as (evs & Etr & Hevs).
  exists evs. split; [exact Etr|]. eapply Forall_impl; eauto.
Qed.

(** Every event of [main], given what holds of the events of its loop
    for the key the configuration holds. *)
Lemma appends_main P config depth :
  (forall key, getitem config "google_api_key" = Ok key ->
     (forall id page_token, P (EvGet (playlist_items_request key id page_token))) /\
     (forall id page_token, P (EvGet (videos_request key id page_token)))) ->
  (forall video_id video summary,
      summarise_video video = Ok summary ->
      P (EvProduce "youtube_videos" video_id (published_value summary))) ->
  P EvFlush ->
  appends_only P (main config depth).
Proof.
  intros Hreq Hp Hflush s. unfold main, bind at 1.
  destruct (main_setup config s) as [[[key pid]|e] s1] eqn:Hsetup.
  - destruct (main_setup_Ok _ _ _ _ _ Hsetup) as [Hkey _].
    destruct (Hreq key Hkey) as [Hpl Hvd].
    assert (Htr : trace s1 = trace s).
    { rewrite <- (main_setup_trace config s), Hsetup. reflexivity. }
    rewrite <- Htr. simpl.
    apply appends_bind; [now apply appends_loop|]. intros _.
    unfold producer_flush.
    apply appends_bind; [now apply appends_emit|]. intros _.
    apply appends_bind_call. intros reports.
    apply appends_for_each. intros r. apply appends_ret.
  - exists []. simpl. rewrite app_nil_r. split; [|constructor].
    rewrite <- (main_setup_trace config s), Hsetup. reflexivity.
Qed.

(** X1.  Every request of a run of [main] goes to one of the two
    endpoints, playlist items or videos, with that endpoint's fixed [part]
    selector and with the [google_api_key] of the configuration as [key]. *)
Theorem main_requests_use_configured_key config depth :
  appends_only (request_with_key config) (main config depth).
Proof.
  apply appends_main.
  - intros key Hkey. split; intros id tok; exists key; split; auto;
      exists id, tok; auto.
  - intros; exact I.
  - exact I.
Qed.

Lemma published_value_schema_shaped video summary :
  summarise_video video = Ok summary -> schema_shaped (published_value summary).
Proof.
  intros Hsum.
  destruct (summarise_video_Ok _ _ Hsum)
    as (video_id & title & views & likes & comments & _ & _ & _ & _ & _ & ->).
  now exists title, views, likes, comments.
Qed.

(** X2.  Every record a run of [main] hands to the producer goes to the
    topic [youtube_videos] and has a value with exactly the fields TITLE,
    VIEWS, LIKES and COMMENTS, in this order, the three counts being
    integers. *)
Theorem main_publishes_schema_shaped_values config depth :
  appends_only publishes_schema_shaped (main config depth).
Proof.
  apply appends_main.
  - intros key _. split; intros; exact I.
  - intros video_id video summary Hsum. split; [reflexivity|].
    now apply published_value_schema_shaped with video.
  - exact I.
Qed.

End Whole_runs.

Section Run_edges.
Context {W : Type} `{World W}.

(** X4.  When the setup of [main] raises (a missing configuration key, a
    Kafka configuration that is not a dict, a failing registry or producer
    constructor), [main] raises the same exception and the trace is
    untouched: no request was made, nothing was published or flushed.  A
    configuration without [schema_registry] fails before the world is
    touched at all. *)
Theorem setup_failure_aborts_before_any_request config depth (s : state W) :
  (forall e s1, main_setup config s = (Raise e, s1) ->
                main config depth s = (Raise e, s1) /\ trace s1 = trace s) /\
  (forall e, getitem config "schema_registry" = Raise e ->
             main config depth s = (Raise e, s)).
Proof.
  split.
  - intros e s1 Hsetup. split.
    + unfold main. now rewrite (bind_Raise _ _ _ _ _ Hsetup).
    + rewrite <- (main_setup_trace config s), Hsetup. reflexivity.
  - intros e He. unfold main, main_setup. unfold bind at 1. now rewrite bind_lift, He.
Qed.

(** X3.  In every run of [main], [flush] is called at most once and only
    as the very last event; whenever [main] returns normally it was
    called. *)
Theorem flush_only_after_complete_walk config depth (s : state W) :
  exists evs,
    Forall not_flush evs /\
    (trace (snd (main config depth s)) = (trace s ++ evs)%list \/
     trace (snd (main config depth s)) = (trace s ++ evs ++ [EvFlush])%list) /\
    (forall r, fst (main config depth s) = Ok r ->
               trace (snd (main config depth s)) = (trace s ++ evs ++ [EvFlush])%list).
Proof.
  destruct (main_setup config s) as [[[key pid]|e] s1] eqn:Hsetup.
  - destruct (main_run config depth s s1 key pid Hsetup) as [-> Htr].
    destruct (appends_loop not_flush depth key pid
                (fun _ _ => eq_refl) (fun _ _ => eq_refl) (fun _ _ _ _ => eq_refl) s1)
      as (evs & Etr & Hevs).
    exists evs. split; [exact Hevs|]. unfold bind.
    destruct (fetch_playlist_items depth key pid VNone _ s1) as [[[]|e] s2];
      simpl in Etr.
    + rewrite producer_flush_trace, Etr, Htr, <- app_assoc. split; [right|]; reflexivity.
    + simpl. rewrite Etr, Htr. split; [left; reflexivity|discriminate].
  - assert (Htr : trace s1 = trace s).
    { rewrite <- (main_setup_trace config s), Hsetup. reflexivity. }
    unfold main. rewrite (bind_Raise _ _ _ _ _ Hsetup).
    exists []. simpl. rewrite app_nil_r.
    split; [constructor|]. split; [left; exact Htr|discriminate].
Qed.

(** X5.  When the request for a page raises, at whatever cursor, the
    generator raises the same exception after that single request: it is
    not repeated, and the consumer is not run.  This holds for the
    playlist walk and for the detail lookup. *)
Theorem request_failure_propagates depth key id tok (yield : value -> M W unit)
        (s : state W) e :
  (fst (requests_get (playlist_items_request key id tok) (world s)) = Raise e ->
   fetch_playlist_items (S depth) key id tok yield s =
   (Raise e,
    {| world := snd (requests_get (playlist_items_request key id tok) (world s));
       trace := trace s ++ [EvGet (playlist_items_request key id tok)] |})) /\
  (fst (requests_get (videos_request key id tok) (world s)) = Raise e ->
   fetch_videos (S depth) key id tok yield s =
   (Raise e,
    {| world := snd (requests_get (videos_request key id tok) (world s));
       trace := trace s ++ [EvGet (videos_request key id tok)] |})).
Proof.
  split; intros Hreq.
  - rewrite fetch_playlist_items_unfold. simpl. now rewrite Hreq.
  - rewrite fetch_videos_unfold. simpl. now rewrite Hreq.
Qed.

(** X6.  When the first page carries a cursor and the request for the
    second page raises, the exception comes after the items of the first
    page were yielded: the trace is the first request, the items, and the
    failed request. *)
Theorem failure_on_second_page_follows_first_items depth key pid tok (w : W) tr p e :
  decoded (fst (requests_get (playlist_items_request key pid tok) w)) = Ok p ->
  is_none (page_next p) = false ->
  fst (requests_get (playlist_items_request key pid (page_next p))
         (snd (requests_get (playlist_items_request key pid tok) w))) = Raise e ->
  fetch_playlist_items (S (S depth)) key pid tok record_yield
    {| world := w; trace := tr |} =
  (Raise e,
   {| world := snd (requests_get (playlist_items_request key pid (page_next p))
                      (snd (requests_get (playlist_items_request key pid tok) w)));
      trace := tr ++ EvGet (playlist_items_request key pid tok)
                  :: map EvYield (page_items p)
                  ++ [EvGet (playlist_items_request key pid (page_next p))] |}).
Proof.
  intros Hp Hnext Hfail.
  rewrite fetch_playlist_items_unfold. cbv zeta. cbn [world trace]. rewrite Hp.
  unfold bind at 1. rewrite for_each_record_yield. rewrite Hnext.
  rewrite fetch_playlist_items_unfold. cbv zeta. cbn [world trace].
  rewrite Hfail. cbn [decoded result_bind].
  rewrite <- !app_assoc. reflexivity.
Qed.

(** X7.  On a playlist whose first page has no items and no cursor,
    [main] makes that one request, publishes nothing, calls [flush] and,
    when [flush] succeeds, returns normally. *)
Theorem empty_playlist_only_flushes config depth (s0 s1 : state W) key pid p reports w' :
  main_setup config s0 = (Ok (key, pid), s1) ->
  (1 <= depth)%nat ->
  decoded (fst (requests_get (playlist_items_request key pid VNone) (world s1))) = Ok p ->
  page_items p = [] ->
  is_none (page_next p) = true ->
  flush (snd (requests_get (playlist_items_request key pid VNone) (world s1)))
    = (Ok reports, w') ->
  main config depth s0 =
  (Ok tt,
   {| world := w';
      trace := trace s0 ++ [EvGet (playlist_items_request key pid VNone); EvFlush] |}).
Proof.
  intros Hsetup Hdepth Hp Hitems Hnext Hflush.
  destruct (main_run config depth s0 s1 key pid Hsetup) as [-> Htr].
  destruct depth as [|depth]; [lia|].
  unfold bind at 1. rewrite fetch_playlist_items_unfold. simpl.
  rewrite Hp, Hitems. simpl. unfold bind at 1. simpl. rewrite Hnext. simpl.
  unfold producer_flush. rewrite bind_emit. unfold bind at 1, call. simpl.
  rewrite Hflush. rewrite Htr, <- app_assoc. simpl.
  clear. generalize (trace s0 ++ [EvGet (playlist_items_request key pid VNone); EvFlush])%list.
  induction reports as [|r reports IH]; intros tr; simpl; [reflexivity|].
  unfold bind, on_delivery, ret. simpl. apply IH.
Qed.

(** X8.  When the first playlist item has no [contentDetails] or no
    [videoId] in it, [main] raises that lookup's exception right after the
    page request: no detail request is made, the remaining items are not
    looked at, and [flush] is not called. *)
Theorem item_without_video_id_aborts config depth (s0 s1 : state W) key pid p item rest e :
  main_setup config s0 = (Ok (key, pid), s1) ->
  (1 <= depth)%nat ->
  decoded (fst (requests_get (playlist_items_request key pid VNone) (world s1))) = Ok p ->
  page_items p = item :: rest ->
  result_bind (getitem item "contentDetails")
              (fun content_details => getitem content_details "videoId") = Raise e ->
  main config depth s0 =
  (Raise e,
   {| world := snd (requests_get (playlist_items_request key pid VNone) (world s1));
      trace := trace s0 ++ [EvGet (playlist_items_request key pid VNone)] |}).
Proof.
  intros Hsetup Hdepth Hp Hitems Hid.
  destruct (main_run config depth s0 s1 key pid Hsetup) as [-> Htr].
  destruct depth as [|depth]; [lia|].
  unfold bind at 1. rewrite fetch_playlist_items_unfold. cbv zeta.
  rewrite Hp, Hitems. cbn [for_each]. unfold bind at 1. unfold bind at 1.
  assert (Hbody : forall s : state W,
             main_for_video_item (S depth) key item s = (Raise e, s)).
  { intros s. unfold main_for_video_item. rewrite bind_lift.
    destruct (getitem item "contentDetails") as [content_details|e']; simpl in Hid.
    - now rewrite bind_lift, Hid.
    - now injection Hid as ->. }
  rewrite Hbody, Htr. reflexivity.
Qed.

End Run_edges.

(** ** The detail lookup and the inner loop *)

Section Detail_lookup.
Context {W : Type} `{World W}.

Lemma bind_ret_tt (c : M W unit) (s : state W) : (c ;;; ret tt) s = c s.
Proof. unfold bind, ret. now destruct (c s) as [[[]|e] s']. Qed.

(** With a detail page that carries no cursor, the lookup is the one
    request followed by the consumer run over the items of the page. *)
Lemma fetch_videos_one_page depth key vid tok (yield : value -> M W unit) (s : state W) p :
  decoded (fst (requests_get (videos_request key vid tok) (world s))) = Ok p ->
  is_none (page_next p) = true ->
  fetch_videos (S depth) key vid tok yield s =
  for_each (page_items p) yield
    {| world := snd (requests_get (videos_request key vid tok) (world s));
       trace := trace s ++ [EvGet (videos_request key vid tok)] |}.
Proof.
  intros Hp Hnext. rewrite fetch_videos_unfold. cbv zeta. rewrite Hp, Hnext.
  apply bind_ret_tt.
Qed.

(** X9.  When the detail page carries no cursor, [fetch_videos] makes
    exactly one request, to the videos endpoint with the given identifier
    and cursor, yields the items of the page in order and returns. *)
Theorem fetch_videos_single_page depth key vid tok (w : W) tr p :
  decoded (fst (requests_get (videos_request key vid tok) w)) = Ok p ->
  is_none (page_next p) = true ->
  fetch_videos (S depth) key vid tok record_yield {| world := w; trace := tr |} =
  (Ok tt,
   {| world := snd (requests_get (videos_request key vid tok) w);
      trace := tr ++ EvGet (videos_request key vid tok) :: map EvYield (page_items p) |}).
Proof.
  intros Hp Hnext.
  rewrite (fetch_videos_one_page depth key vid tok record_yield
             {| world := w; trace := tr |} p Hp Hnext).
  rewrite for_each_record_yield. simpl. now rewrite <- app_assoc.
Qed.

(** X10.  When the detail page carries a cursor, [fetch_videos], having
    yielded the items of the page, goes on as [fetch_playlist_items] does
    from that cursor, with the video identifier as playlist identifier. *)
Theorem fetch_videos_cursor_starts_playlist_walk depth key vid tok (w : W) tr p :
  decoded (fst (requests_get (videos_request key vid tok) w)) = Ok p ->
  is_none (page_next p) = false ->
  fetch_videos (S depth) key vid tok record_yield {| world := w; trace := tr |} =
  fetch_playlist_items depth key vid (page_next p) record_yield
    {| world := snd (requests_get (videos_request key vid tok) w);
       trace := tr ++ EvGet (videos_request key vid tok) :: map EvYield (page_items p) |}.
Proof.
  intros Hp Hnext. rewrite fetch_videos_unfold. cbv zeta. cbn [world trace].
  rewrite Hp. unfold bind at 1. rewrite for_each_record_yield. rewrite Hnext.
  cbn [world trace]. now rewrite <- app_assoc.
Qed.

(** The inner loop over entities that are all accepted, with a producer
    that accepts every record. *)
Lemma for_each_published key videos summaries :
  (forall topic k val w, fst (produce topic k val w) = Ok tt) ->
  Forall2 (fun video summary => summarise_video video = Ok summary) videos summaries ->
  forall s : state W,
    fst (for_each videos (main_for_video key) s) = Ok tt /\
    trace (snd (for_each videos (main_for_video key) s)) =
    (trace s ++ map (fun summary => EvProduce "youtube_videos" key (published_value summary))
                    summaries)%list.
Proof.
  intros Hprod Hall. induction Hall as [|video summary videos summaries Hsum _ IH];
    intros s; simpl.
  - now rewrite app_nil_r.
  - unfold bind.
    rewrite (main_for_video_run key video summary (published_value summary));
      auto using main_value_of_summary.
    rewrite Hprod.
    destruct (IH {| world := snd (produce "youtube_videos" key (published_value summary)
                                    (world s));
                    trace := trace s ++ [EvProduce "youtube_videos" key
                                           (published_value summary)] |})
      as [Hr Htr].
    split; [exact Hr|]. rewrite Htr. simpl. now rewrite <- app_assoc.
Qed.

Lemma produce_calls_published key summaries :
  produce_calls
    (map (fun summary => EvProduce "youtube_videos" key (published_value summary)) summaries)
  = map (record_of key) summaries.
Proof. induction summaries as [|x xs IH]; simpl; [reflexivity|now rewrite IH]. Qed.

Lemma for_each_app {A} (xs ys : list A) (body : A -> M W unit) (s : state W) :
  for_each (xs ++ ys) body s = (for_each xs body ;;; for_each ys body) s.
Proof.
  revert s. induction xs as [|x xs IH]; intros s; simpl.
  - reflexivity.
  - unfold bind. destruct (body x s) as [[[]|e] s1]; [|reflexivity].
    rewrite IH. reflexivity.
Qed.

(** X11.  When the detail page carries no cursor, [summarise_video]
    accepts all of its entities and the producer accepts every record, the
    inner loop of [main] returns normally having made one call to
    [produce] per entity, in the order of the page, all under the
    identifier that was looked up. *)
Theorem entities_are_published_in_order depth key vid (s : state W) p summaries :
  (forall topic k val w, fst (produce topic k val w) = Ok tt) ->
  decoded (fst (requests_get (videos_request key vid VNone) (world s))) = Ok p ->
  is_none (page_next p) = true ->
  Forall2 (fun video summary => summarise_video video = Ok summary)
          (page_items p) summaries ->
  fst (fetch_videos (S depth) key vid VNone (main_for_video vid) s) = Ok tt /\
  produce_calls (trace (snd (fetch_videos (S depth) key vid VNone (main_for_video vid) s))) =
  (produce_calls (trace s) ++ map (record_of vid) summaries)%list.
Proof.
  intros Hprod Hp Hnext Hall.
  rewrite (fetch_videos_one_page depth key vid VNone (main_for_video vid) s p Hp Hnext).
  destruct (for_each_published vid _ _ Hprod Hall
              {| world := snd (requests_get (videos_request key vid VNone) (world s));
                 trace := trace s ++ [EvGet (videos_request key vid VNone)] |})
    as [Hr Htr].
  split; [exact Hr|]. rewrite Htr. cbn [trace].
  rewrite !produce_calls_app, produce_calls_published. simpl.
  now rewrite app_nil_r.
Qed.

(** X12.  When some entity of the detail page is rejected by
    [summarise_video], the inner loop of [main] raises that exception
    having published exactly the entities before it: neither the rejected
    entity nor those after it reach the producer. *)
Theorem publication_stops_at_rejected_entity depth key vid (s : state W) p
        accepted summaries rejected rest e :
  (forall topic k val w, fst (produce topic k val w) = Ok tt) ->
  decoded (fst (requests_get (videos_request key vid VNone) (world s))) = Ok p ->
  page_items p = (accepted ++ rejected :: rest)%list ->
  Forall2 (fun video summary => summarise_video video = Ok summary) accepted summaries ->
  summarise_video rejected = Raise e ->
  fst (fetch_videos (S depth) key vid VNone (main_for_video vid) s) = Raise e /\
  produce_calls (trace (snd (fetch_videos (S depth) key vid VNone (main_for_video vid) s))) =
  (produce_calls (trace s) ++ map (record_of vid) summaries)%list.
Proof.
  intros Hprod Hp Hitems Hall Hrej.
  destruct (for_each_published vid _ _ Hprod Hall
              {| world := snd (requests_get (videos_request key vid VNone) (world s));
                 trace := trace s ++ [EvGet (videos_request key vid VNone)] |})
    as [Hr Htr].
  destruct (for_each accepted (main_for_video vid) _) as [r s1] eqn:Hacc.
  simpl in Hr, Htr. subst r.
  assert (Hrun : fetch_videos (S depth) key vid VNone (main_for_video vid) s
                 = (Raise e, s1)).
  { rewrite fetch_videos_unfold. cbv zeta. rewrite Hp, Hitems.
    unfold bind at 1. rewrite for_each_app. unfold bind at 1. rewrite Hacc.
    cbn [for_each]. unfold bind at 1.
    now rewrite (main_for_video_summary_raises vid rejected e s1 Hrej). }
  rewrite Hrun. split; [reflexivity|]. cbn [snd]. rewrite Htr.
  rewrite !produce_calls_app, produce_calls_published. simpl.
  now rewrite app_nil_r.
Qed.

(** X13.  When [produce] raises for the first entity of a detail page,
    the inner loop of [main] raises the same exception right after that
    call: the remaining entities are not looked at. *)
Theorem producer_failure_aborts_lookup depth key vid (s : state W) p video rest summary e :
  decoded (fst (requests_get (videos_request key vid VNone) (world s))) = Ok p ->
  page_items p = video :: rest ->
  summarise_video video = Ok summary ->
  fst (produce "youtube_videos" vid (published_value summary)
         (snd (requests_get (videos_request key vid VNone) (world s)))) = Raise e ->
  fetch_videos (S depth) key vid VNone (main_for_video vid) s =
  (Raise e,
   {| world := snd (produce "youtube_videos" vid (published_value summary)
                      (snd (requests_get (videos_request key vid VNone) (world s))));
      trace := trace s ++ [EvGet (videos_request key vid VNone);
                           EvProduce "youtube_videos" vid (published_value summary)] |}).
Proof.
  intros Hp Hitems Hsum Hprod.
  rewrite fetch_videos_unfold. cbv zeta. rewrite Hp, Hitems.
  cbn [for_each]. unfold bind at 1. unfold bind at 1.
  rewrite (main_for_video_run vid video summary (published_value summary));
    auto using main_value_of_summary.
  cbn [world trace]. rewrite Hprod. rewrite <- app_assoc. reflexivity.
Qed.

End Detail_lookup.

(** ** Counts that cannot be read *)

Section Counts.
Context {W : Type} `{World W}.

Lemma statistic_unusable video st name x e :
  getitem video "statistics" = Ok (VDict st) ->
  dict_lookup name st = Some x ->
  py_int x = Raise e ->
  statistic video name = Raise e.
Proof.
  intros Hst Hname Hint. unfold statistic. rewrite Hst. simpl. now rewrite Hname.
Qed.

(** X14.  A count that is present in the statistics but that [int] does
    not accept (a null, a list, a string that is no number) is not
    replaced by zero: [summarise_video] raises, so the loop body raises
    without calling [produce]; for [viewCount], on an entity with [id] and
    title, the exception is the one [int] raised. *)
Theorem unusable_count_rejects_entity video st name x e :
  In name ["viewCount"; "likeCount"; "commentCount"] ->
  getitem video "statistics" = Ok (VDict st) ->
  dict_lookup name st = Some x ->
  py_int x = Raise e ->
  exists e',
    summarise_video video = Raise e' /\
    (forall key (s : state W), main_for_video key video s = (Raise e', s)) /\
    (forall video_id title,
        getitem video "id" = Ok video_id -> snippet_title video = Ok title ->
        name = "viewCount" -> e' = e).
Proof.
  intros Hin Hst Hname Hint.
  pose proof (statistic_unusable _ _ _ _ _ Hst Hname Hint) as Hstat.
  assert (Hsum : exists e', summarise_video video = Raise e' /\
                   (forall video_id title,
                       getitem video "id" = Ok video_id -> snippet_title video = Ok title ->
                       name = "viewCount" -> e' = e)).
  { unfold summarise_video.
    destruct (getitem video "id") as [i|e0]; simpl;
      [|exists e0; split; [reflexivity|discriminate]].
    destruct (snippet_title video) as [t|e0]; simpl;
      [|exists e0; split; [reflexivity|discriminate]].
    destruct (statistic video "viewCount") as [v|e1] eqn:Ev; simpl.
    - destruct (statistic video "likeCount") as [l|e2] eqn:El; simpl.
      + destruct (statistic video "commentCount") as [c|e3] eqn:Ec; simpl.
        * simpl in Hin. destruct Hin as [<-|[<-|[<-|[]]]]; congruence.
        * exists e3. split; [reflexivity|]. intros ? ? _ _ ->. congruence.
      + exists e2. split; [reflexivity|]. intros ? ? _ _ ->. congruence.
    - exists e1. split; [reflexivity|]. intros ? ? _ _ ->. congruence. }
  destruct Hsum as (e' & Hsum & Hexact).
  exists e'. split; [exact Hsum|]. split; [|exact Hexact].
  intros key s. now apply main_for_video_summary_raises.
Qed.

(** X15.  The zero default is for the fields of the statistics object,
    not for the object: an entity with [id] and title but whose
    [statistics] cannot be read makes [summarise_video], the construction
    of the published value and the loop body raise that lookup's
    exception, and nothing is published. *)
Theorem entity_without_statistics_is_rejected video video_id title e :
  getitem video "id" = Ok video_id ->
  snippet_title video = Ok title ->
  getitem video "statistics" = Raise e ->
  summarise_video video = Raise e /\
  main_value video = Raise e /\
  (forall key (s : state W), main_for_video key video s = (Raise e, s)).
Proof.
  intros Hid Ht Hst.
  assert (Hsum : summarise_video video = Raise e).
  { unfold summarise_video, statistic. now rewrite Hid, Ht, Hst. }
  split; [exact Hsum|]. split.
  - unfold main_value, statistic. now rewrite Ht, Hst.
  - intros key s. now apply main_for_video_summary_raises.
Qed.

End Counts.

(** ** Laziness of the walk *)

Section Laziness.
Context {W : Type} `{World W}.

(** X16.  The walk is lazy: when a page carries a cursor, the next page
    is requested only after the consumer has taken every item of the
    page, from the state the consumer left; and when the consumer raises
    on an item, the walk ends with that exception and the next page is
    never requested. *)
Theorem next_page_waits_for_consumer depth key pid tok (yield : value -> M W unit)
        (s : state W) p :
  decoded (fst (requests_get (playlist_items_request key pid tok) (world s))) = Ok p ->
  is_none (page_next p) = false ->
  let s1 := {| world := snd (requests_get (playlist_items_request key pid tok) (world s));
               trace := trace s ++ [EvGet (playlist_items_request key pid tok)] |} in
  (forall s2, for_each (page_items p) yield s1 = (Ok tt, s2) ->
              fetch_playlist_items (S depth) key pid tok yield s =
              fetch_playlist_items depth key pid (page_next p) yield s2) /\
  (forall e s2, for_each (page_items p) yield s1 = (Raise e, s2) ->
                fetch_playlist_items (S depth) key pid tok yield s = (Raise e, s2)).
Proof.
  intros Hp Hnext s1. split.
  - intros s2 Hitems. rewrite fetch_playlist_items_unfold. cbv zeta. rewrite Hp.
    fold s1. unfold bind at 1. rewrite Hitems, Hnext. reflexivity.
  - intros e s2 Hitems. rewrite fetch_playlist_items_unfold. cbv zeta. rewrite Hp.
    fold s1. unfold bind at 1. rewrite Hitems. reflexivity.
Qed.

(** X17.  A recorded walk of a playlist only requests pages of that
    playlist, with the given key, whatever cursors it meets; it never
    publishes and never flushes. *)
Theorem playlist_walk_only_requests_its_playlist depth key pid tok :
  appends_only (playlist_walk_event key pid)
               (fetch_playlist_items depth key pid tok record_yield).
Proof.
  apply appends_playlist_walk.
  - intros page_token. simpl. eauto.
  - intros x. unfold record_yield. apply appends_emit. exact I.
Qed.

End Laziness.

Lemma next_page_waits_for_consumer_witness :
  @fetch_playlist_items mock (mock_world two_pages quiet) 5
     (VStr "k") (VStr "PL") VNone (@record_yield mock) mock_init =
  @fetch_playlist_items mock (mock_world two_pages quiet) 4
     (VStr "k") (VStr "PL") (VStr "X") (@record_yield mock)
     {| world := {| served := 1; queue := [] |};
        trace := [EvGet (playlist_items_request (VStr "k") (VStr "PL") VNone);
                  EvYield (playlist_item "a")] |}.
Proof.
  refine (proj1 (@next_page_waits_for_consumer mock (mock_world two_pages quiet) 4
                   (VStr "k") (VStr "PL") VNone (@record_yield mock) mock_init
                   {| page_items := [playlist_item "a"]; page_next := VStr "X" |} _ _)
                _ _); reflexivity.
Defined.

(** ** The further properties at work on the test double *)

Lemma setup_failure_aborts_before_any_request_witness :
  @main mock (mock_world single_video quiet) (VDict []) 5 mock_init =
  (Raise (KeyError "schema_registry"), mock_init) /\
  @main mock (mock_world single_video quiet)
     (VDict [("schema_registry", VDict []); ("kafka", VList [])]) 5 mock_init =
  (Raise TypeError, mock_init).
Proof.
  split.
  - apply (proj2 (@setup_failure_aborts_before_any_request mock
                    (mock_world single_video quiet) (VDict []) 5 mock_init)).
    reflexivity.
  - apply (proj1 (@setup_failure_aborts_before_any_request mock
                    (mock_world single_video quiet)
                    (VDict [("schema_registry", VDict []); ("kafka", VList [])])
                    5 mock_init)).
    reflexivity.
Defined.

Lemma request_failure_propagates_witness :
  @fetch_playlist_items mock (mock_world second_page_fails quiet) 3
     (VStr "k") (VStr "PL") (VStr "X") (@record_yield mock) mock_init =
  (Raise (RequestException "connection reset"),
   {| world := {| served := 1; queue := [] |};
      trace := [EvGet (playlist_items_request (VStr "k") (VStr "PL") (VStr "X"))] |}).
Proof.
  apply (proj1 (@request_failure_propagates mock (mock_world second_page_fails quiet)
                  2 (VStr "k") (VStr "PL") (VStr "X") (@record_yield mock) mock_init
                  (RequestException "connection reset"))).
  reflexivity.
Defined.

Lemma failure_on_second_page_follows_first_items_witness :
  @fetch_playlist_items mock (mock_world second_page_fails quiet) 5
     (VStr "k") (VStr "PL") VNone (@record_yield mock) mock_init =
  (Raise (RequestException "connection reset"),
   {| world := {| served := 2; queue := [] |};
      trace := [EvGet (playlist_items_request (VStr "k") (VStr "PL") VNone);
                EvYield (playlist_item "a");
                EvGet (playlist_items_request (VStr "k") (VStr "PL") (VStr "X"))] |}).
Proof.
  apply (@failure_on_second_page_follows_first_items mock
           (mock_world second_page_fails quiet) 3 (VStr "k") (VStr "PL") VNone
           {| served := 0; queue := [] |} []
           {| page_items := [playlist_item "a"]; page_next := VStr "X" |}
           (RequestException "connection reset"));
    reflexivity.
Defined.

Lemma empty_playlist_only_flushes_witness :
  @main mock (mock_world empty_playlist quiet) mock_config 5 mock_init =
  (Ok tt,
   {| world := {| served := 1; queue := [] |};
      trace := [EvGet (playlist_items_request (VStr "k") (VStr "PL") VNone); EvFlush] |}).
Proof.
  apply (@empty_playlist_only_flushes mock (mock_world empty_playlist quiet)
           mock_config 5 mock_init mock_init (VStr "k") (VStr "PL")
           {| page_items := []; page_next := VNone |} []
           {| served := 1; queue := [] |});
    try reflexivity.
  lia.
Defined.

Lemma item_without_video_id_aborts_witness :
  @main mock (mock_world without_video_id quiet) mock_config 5 mock_init =
  (Raise (KeyError "videoId"),
   {| world := {| served := 1; queue := [] |};
      trace := [EvGet (playlist_items_request (VStr "k") (VStr "PL") VNone)] |}).
Proof.
  apply (@item_without_video_id_aborts mock (mock_world without_video_id quiet)
           mock_config 5 mock_init mock_init (VStr "k") (VStr "PL")
           {| page_items := [VDict [("contentDetails", VDict [])]]; page_next := VNone |}
           (VDict [("contentDetails", VDict [])]) [] (KeyError "videoId"));
    try reflexivity.
  lia.
Defined.

Lemma fetch_videos_single_page_witness :
  @fetch_videos mock (mock_world single_video quiet) 5 (VStr "k") (VStr "a") VNone
     (@record_yield mock) mock_init =
  (Ok tt,
   {| world := {| served := 1; queue := [] |};
      trace := [EvGet (videos_request (VStr "k") (VStr "a") VNone); EvYield video_a] |}).
Proof.
  apply (@fetch_videos_single_page mock (mock_world single_video quiet) 4
           (VStr "k") (VStr "a") VNone {| served := 0; queue := [] |} []
           {| page_items := [video_a]; page_next := VNone |});
    reflexivity.
Defined.

Lemma fetch_videos_cursor_starts_playlist_walk_witness :
  @fetch_videos mock (mock_world detail_with_cursor quiet) 5 (VStr "k") (VStr "a") VNone
     (@record_yield mock) mock_init =
  @fetch_playlist_items mock (mock_world detail_with_cursor quiet) 4
     (VStr "k") (VStr "a") (VStr "X") (@record_yield mock)
     {| world := {| served := 1; queue := [] |};
        trace := [EvGet (videos_request (VStr "k") (VStr "a") VNone); EvYield video_a] |}.
Proof.
  apply (@fetch_videos_cursor_starts_playlist_walk mock
           (mock_world detail_with_cursor quiet) 4
           (VStr "k") (VStr "a") VNone {| served := 0; queue := [] |} []
           {| page_items := [video_a]; page_next := VStr "X" |});
    reflexivity.
Defined.

Lemma entities_are_published_in_order_witness :
  produce_calls
    (trace (snd (@fetch_videos mock (mock_world two_entities quiet) 5
                   (VStr "k") (VStr "a") VNone
                   (@main_for_video mock (mock_world two_entities quiet) (VStr "a"))
                   mock_init))) =
  [("youtube_videos", VStr "a",
    VDict [("TITLE", VStr "T"); ("VIEWS", VInt 5); ("LIKES", VInt 0); ("COMMENTS", VInt 0)]);
   ("youtube_videos", VStr "a",
    VDict [("TITLE", VStr "B"); ("VIEWS", VInt 0); ("LIKES", VInt 0); ("COMMENTS", VInt 0)])].
Proof.
  refine (proj2 (@entities_are_published_in_order mock (mock_world two_entities quiet) 4
                  (VStr "k") (VStr "a") mock_init
                  {| page_items := [video_a; video_b]; page_next := VNone |}
                  [VDict [("video_id", VStr "a"); ("title", VStr "T"); ("views", VInt 5);
                          ("likes", VInt 0); ("comments", VInt 0)];
                   VDict [("video_id", VStr "b"); ("title", VStr "B"); ("views", VInt 0);
                          ("likes", VInt 0); ("comments", VInt 0)]]
                  _ _ _ _)).
  - intros topic k val w. reflexivity.
  - reflexivity.
  - reflexivity.
  - repeat constructor.
Defined.

Lemma publication_stops_at_rejected_entity_witness :
  fst (@fetch_videos mock (mock_world rejected_in_the_middle quiet) 5
         (VStr "k") (VStr "a") VNone
         (@main_for_video mock (mock_world rejected_in_the_middle quiet) (VStr "a"))
         mock_init) = Raise TypeError /\
  produce_calls
    (trace (snd (@fetch_videos mock (mock_world rejected_in_the_middle quiet) 5
                   (VStr "k") (VStr "a") VNone
                   (@main_for_video mock (mock_world rejected_in_the_middle quiet) (VStr "a"))
                   mock_init))) =
  [("youtube_videos", VStr "a",
    VDict [("TITLE", VStr "T"); ("VIEWS", VInt 5); ("LIKES", VInt 0); ("COMMENTS", VInt 0)])].
Proof.
  refine (@publication_stops_at_rejected_entity mock
           (mock_world rejected_in_the_middle quiet) 4
           (VStr "k") (VStr "a") mock_init
           {| page_items := [video_a; video_null_views; video_b]; page_next := VNone |}
           [video_a]
           [VDict [("video_id", VStr "a"); ("title", VStr "T"); ("views", VInt 5);
                   ("likes", VInt 0); ("comments", VInt 0)]]
           video_null_views [video_b] TypeError
           _ _ _ _ _).
  - intros topic k val w. reflexivity.
  - reflexivity.
  - reflexivity.
  - repeat constructor.
  - reflexivity.
Defined.

Lemma producer_failure_aborts_lookup_witness :
  @fetch_videos mock (refusing_world single_video) 5 (VStr "k") (VStr "a") VNone
     (@main_for_video mock (refusing_world single_video) (VStr "a")) mock_init =
  (Raise (KafkaException "queue full"),
   {| world := {| served := 1; queue := [] |};
      trace := [EvGet (videos_request (VStr "k") (VStr "a") VNone);
                EvProduce "youtube_videos" (VStr "a")
                  (VDict [("TITLE", VStr "T"); ("VIEWS", VInt 5);
                          ("LIKES", VInt 0); ("COMMENTS", VInt 0)])] |}).
Proof.
  apply (@producer_failure_aborts_lookup mock (refusing_world single_video) 4
           (VStr "k") (VStr "a") mock_init
           {| page_items := [video_a]; page_next := VNone |} video_a []
           (VDict [("video_id", VStr "a"); ("title", VStr "T"); ("views", VInt 5);
                   ("likes", VInt 0); ("comments", VInt 0)])
           (KafkaException "queue full"));
    reflexivity.
Defined.

Lemma unusable_count_rejects_entity_witness :
  exists e,
    summarise_video video_null_views = Raise e /\
    @main_for_video mock (mock_world single_video quiet) (VStr "n") video_null_views
       mock_init = (Raise e, mock_init) /\
    e = TypeError.
Proof.
  destruct (@unusable_count_rejects_entity mock (mock_world single_video quiet)
              video_null_views [("viewCount", VNone)] "viewCount" VNone TypeError
              (or_introl eq_refl) eq_refl eq_refl eq_refl)
    as (e & Hsum & Hbody & Hexact).
  exists e. split; [exact Hsum|]. split; [apply Hbody|].
  apply (Hexact (VStr "n") (VStr "N")); reflexivity.
Defined.

Lemma entity_without_statistics_is_rejected_witness :
  summarise_video video_without_statistics = Raise (KeyError "statistics") /\
  main_value video_without_statistics = Raise (KeyError "statistics").
Proof.
  destruct (@entity_without_statistics_is_rejected mock (mock_world single_video quiet)
              video_without_statistics (VStr "s") (VStr "S") (KeyError "statistics")
              eq_refl eq_refl eq_refl)
    as (Hsum & Hval & _).
  split; assumption.
Defined.

(** * What is published, and under which key *)

Section Lookups.
Context {W : Type} `{World W}.

Lemma appends_for_each_In {A} P (xs : list A) (body : A -> M W unit) :
  (forall x, In x xs -> appends_only P (body x)) -> appends_only P (for_each xs body).
Proof.
  induction xs as [|x xs IH]; intros Hbody; simpl.
  - apply appends_ret.
  - apply appends_bind.
    + apply Hbody. now left.
    + intros _. apply IH. intros y Hy. apply Hbody. now right.
Qed.

(** A computation run after one more event. *)
Lemma appends_after {A} (P : event -> Prop) (c : M W A) (s s1 : state W) e :
  trace s1 = (trace s ++ [e])%list ->
  P e ->
  appends_only P c ->
  exists evs, trace (snd (c s1)) = (trace s ++ evs)%list /\ Forall P evs.
Proof.
  intros Htr He Hc. destruct (Hc s1) as (evs & Etr & Hevs).
  exists (e :: evs). split; [|now constructor].
  rewrite Etr, Htr, <- app_assoc. reflexivity.
Qed.

(** The consumer of a playlist walk is only handed items of pages the
    world serves for that playlist. *)
Lemma playlist_walk_serves P depth key pid tok (yield : value -> M W unit) :
  (forall page_token, P (EvGet (playlist_items_request key pid page_token))) ->
  (forall x,
      (exists (w : W) page_token p,
          decoded (fst (requests_get (playlist_items_request key pid page_token) w)) = Ok p /\
          In x (page_items p)) ->
      appends_only P (yield x)) ->
  appends_only P (fetch_playlist_items depth key pid tok yield).
Proof.
  intros Hget Hyield. revert tok.
  induction depth as [|depth IH]; intros tok s.
  - exists []. simpl. rewrite app_nil_r. split; [reflexivity|constructor].
  - rewrite fetch_playlist_items_unfold. cbv zeta.
    destruct (decoded (fst (requests_get (playlist_items_request key pid tok) (world s))))
      as [p|e] eqn:Hp.
    + apply appends_after with (e := EvGet (playlist_items_request key pid tok));
        [reflexivity|apply Hget|].
      apply appends_bind.
      * apply appends_for_each_In. intros x Hx. apply Hyield.
        exists (world s), tok, p. auto.
      * intros _. apply appends_if; [apply appends_ret|apply IH].
    + exists [EvGet (playlist_items_request key pid tok)]. simpl.
      split; [reflexivity|]. constructor; [apply Hget|constructor].
Qed.

(** The consumer of a detail lookup is only handed items served to that
    lookup. *)
Lemma videos_walk_serves P depth key vid tok (yield : value -> M W unit) :
  (forall page_token, P (EvGet (videos_request key vid page_token))) ->
  (forall page_token, P (EvGet (playlist_items_request key vid page_token))) ->
  (forall x, served_to key vid x -> appends_only P (yield x)) ->
  appends_only P (fetch_videos depth key vid tok yield).
Proof.
  intros Hget Hget' Hyield. destruct depth as [|depth]; intros s.
  - exists []. simpl. rewrite app_nil_r. split; [reflexivity|constructor].
  - rewrite fetch_videos_unfold. cbv zeta.
    destruct (decoded (fst (requests_get (videos_request key vid tok) (world s))))
      as [p|e] eqn:Hp.
    + apply appends_after with (e := EvGet (videos_request key vid tok));
        [reflexivity|apply Hget|].
      apply appends_bind.
      * apply appends_for_each_In. intros x Hx. apply Hyield.
        exists (world s), tok, p. auto.
      * intros _. apply appends_if; [apply appends_ret|].
        apply playlist_walk_serves; [exact Hget'|].
        intros x (w & t & p' & Hp' & Hx). apply Hyield.
        exists w, t, p'. auto.
    + exists [EvGet (videos_request key vid tok)]. simpl.
      split; [reflexivity|]. constructor; [apply Hget|constructor].
Qed.

Lemma body_events_of_lookup depth key video_item :
  appends_only (event_of_lookup key video_item) (main_for_video_item depth key video_item).
Proof.
  unfold main_for_video_item.
  apply appends_bind_lift. intros content_details Hcd.
  apply appends_bind_lift. intros video_id Hid.
  apply videos_walk_serves.
  - intros page_token. simpl. exists content_details, video_id, page_token. auto.
  - intros page_token. simpl. exists content_details, video_id, page_token. auto.
  - intros video Hserved. apply appends_inner_body. intros summary Hsum. simpl.
    split; [reflexivity|]. split; [eauto|].
    exists video, summary. repeat split; auto.
    destruct (summarise_video_Ok _ _ Hsum) as (i & ? & ? & ? & ? & Hi & _ & _ & _ & _ & E).
    rewrite E, Hi. reflexivity.
Qed.

(** C5, as amended.  Every record the outer loop body publishes for a
    playlist item goes to the topic [youtube_videos] under a key that is,
    verbatim, the [videoId] of that item, and its value is the renamed
    summary of an entity served to the lookup made for that [videoId],
    the identifier of the summary being the entity's own [id] verbatim;
    besides such publications the body only makes the requests of that
    lookup.  Hence, when the source API serves to a lookup only entities
    whose [id] is the identifier asked for, the key of every published
    record is the identifier of the entity whose summary it carries.  The
    script itself compares nothing and does not require the identifier to
    be non-empty. *)
Theorem published_key_is_item_video_id depth google_api_key video_item :
  appends_only (event_of_lookup google_api_key video_item)
               (main_for_video_item depth google_api_key video_item) /\
  ((forall content_details video_id video,
       getitem video_item "contentDetails" = Ok content_details ->
       getitem content_details "videoId" = Ok video_id ->
       served_to google_api_key video_id video ->
       getitem video "id" = Ok video_id) ->
   appends_only (event_with_entity_key google_api_key video_item)
                (main_for_video_item depth google_api_key video_item)).
Proof.
  split; [apply body_events_of_lookup|].
  intros Hasked. apply appends_weaken with (P := event_of_lookup google_api_key video_item);
    [|apply body_events_of_lookup].
  intros [r|item|topic key val|] He; split; try exact He; try exact I.
  destruct He as (_ & (content_details & Hcd & Hid) & (video & summary & Hs & Hsum & Hi & Hv)).
  exists video, summary.
  pose proof (Hasked content_details key video Hcd Hid Hs) as Hkey.
  repeat split; auto. now rewrite Hi.
Qed.

End Lookups.

Lemma published_key_is_item_video_id_witness :
  @appends_only mock unit
     (@event_with_entity_key mock (mock_world asked_for quiet) (VStr "k") (playlist_item "a"))
     (@main_for_video_item mock (mock_world asked_for quiet) 5 (VStr "k") (playlist_item "a")).
Proof.
  apply (proj2 (@published_key_is_item_video_id mock (mock_world asked_for quiet)
                  5 (VStr "k") (playlist_item "a"))).
  intros content_details video_id video Hcd Hid (w & page_token & p & Hp & Hin).
  injection Hcd as <-. injection Hid as <-.
  destruct Hp as [Hp|Hp]; [|discriminate Hp].
  injection Hp as <-. destruct Hin as [<-|[]]. reflexivity.
Defined.

(** * Payloads that lack what the script reads *)

Section Malformed.
Context {W : Type} `{World W}.

(** C7, as amended.  The script has no exception type of its own: what
    fails, fails with Python's built-in exceptions, and nothing is
    defaulted.  A body that is not JSON makes the page fetch raise
    JSONDecodeError, for either endpoint.  A body that is JSON is returned
    by the page fetch as it is, with or without [items]: it is the walk
    that raises when [items] cannot be read, before anything is yielded
    (KeyError for a dict without the field).  The detail lookup yields the
    entities of a page unchecked, with or without [id] and title: it is
    [summarise_video] that raises on an entity without [id], or with an
    [id] but without [snippet] or its [title] (KeyError for a missing
    field), and the loop body of [main] then raises the same exception
    without handing anything to the producer. *)
Theorem malformed_payloads_raise :
  (forall key pid tok (s : state W) resp raw,
      fst (requests_get (playlist_items_request key pid tok) (world s)) = Ok resp ->
      text resp = NotJson raw ->
      fst (fetch_playlist_items_page key pid tok s) = Raise JSONDecodeError) /\
  (forall key vid tok (s : state W) resp raw,
      fst (requests_get (videos_request key vid tok) (world s)) = Ok resp ->
      text resp = NotJson raw ->
      fst (fetch_videos_page key vid tok s) = Raise JSONDecodeError) /\
  (forall key pid tok (s : state W) resp payload,
      fst (requests_get (playlist_items_request key pid tok) (world s)) = Ok resp ->
      text resp = Json payload ->
      fst (fetch_playlist_items_page key pid tok s) = Ok payload) /\
  (forall key vid tok (s : state W) resp payload,
      fst (requests_get (videos_request key vid tok) (world s)) = Ok resp ->
      text resp = Json payload ->
      fst (fetch_videos_page key vid tok s) = Ok payload) /\
  (forall depth key pid tok yield (s : state W) resp payload e,
      fst (requests_get (playlist_items_request key pid tok) (world s)) = Ok resp ->
      text resp = Json payload ->
      getitem payload "items" = Raise e ->
      fetch_playlist_items (S depth) key pid tok yield s =
      (Raise e,
       {| world := snd (requests_get (playlist_items_request key pid tok) (world s));
          trace := trace s ++ [EvGet (playlist_items_request key pid tok)] |})) /\
  (forall depth key vid tok yield (s : state W) resp payload e,
      fst (requests_get (videos_request key vid tok) (world s)) = Ok resp ->
      text resp = Json payload ->
      getitem payload "items" = Raise e ->
      fetch_videos (S depth) key vid tok yield s =
      (Raise e,
       {| world := snd (requests_get (videos_request key vid tok) (world s));
          trace := trace s ++ [EvGet (videos_request key vid tok)] |})) /\
  (forall d, dict_lookup "items" d = None ->
             getitem (VDict d) "items" = Raise (KeyError "items")) /\
  (forall depth key vid tok (s : state W) p,
      decoded (fst (requests_get (videos_request key vid tok) (world s))) = Ok p ->
      is_none (page_next p) = true ->
      fetch_videos (S depth) key vid tok record_yield s =
      (Ok tt,
       {| world := snd (requests_get (videos_request key vid tok) (world s));
          trace := trace s ++ EvGet (videos_request key vid tok)
                           :: map EvYield (page_items p) |})) /\
  (forall key video e (s : state W),
      getitem video "id" = Raise e ->
      summarise_video video = Raise e /\
      main_for_video key video s = (Raise e, s)) /\
  (forall key video video_id e (s : state W),
      getitem video "id" = Ok video_id ->
      snippet_title video = Raise e ->
      summarise_video video = Raise e /\
      main_for_video key video s = (Raise e, s)) /\
  (forall d, dict_lookup "id" d = None ->
             summarise_video (VDict d) = Raise (KeyError "id")) /\
  (forall d video_id, dict_lookup "id" d = Some video_id ->
                      dict_lookup "snippet" d = None ->
                      summarise_video (VDict d) = Raise (KeyError "snippet")) /\
  (forall d video_id snippet, dict_lookup "id" d = Some video_id ->
                              dict_lookup "snippet" d = Some (VDict snippet) ->
                              dict_lookup "title" snippet = None ->
                              summarise_video (VDict d) = Raise (KeyError "title")).
Proof.
  repeat apply conj.
  - intros key pid tok s resp raw Hresp Htext.
    rewrite fetch_playlist_items_page_run. simpl. now rewrite Hresp; simpl; rewrite Htext.
  - intros key vid tok s resp raw Hresp Htext.
    rewrite fetch_videos_page_run. simpl. now rewrite Hresp; simpl; rewrite Htext.
  - intros key pid tok s resp payload Hresp Htext.
    rewrite fetch_playlist_items_page_run. simpl. now rewrite Hresp; simpl; rewrite Htext.
  - intros key vid tok s resp payload Hresp Htext.
    rewrite fetch_videos_page_run. simpl. now rewrite Hresp; simpl; rewrite Htext.
  - intros depth key pid tok yield s resp payload e Hresp Htext Hitems.
    rewrite fetch_playlist_items_unfold. simpl. unfold decoded.
    rewrite Hresp. simpl. rewrite Htext. simpl. unfold page_of. now rewrite Hitems.
  - intros depth key vid tok yield s resp payload e Hresp Htext Hitems.
    rewrite fetch_videos_unfold. simpl. unfold decoded.
    rewrite Hresp. simpl. rewrite Htext. simpl. unfold page_of. now rewrite Hitems.
  - intros d Hd. simpl. now rewrite Hd.
  - intros depth key vid tok s p Hp Hnext.
    rewrite (fetch_videos_one_page depth key vid tok record_yield s p Hp Hnext).
    rewrite for_each_record_yield. simpl. now rewrite <- app_assoc.
  - intros key video e s Hid.
    split; [|apply main_for_video_summary_raises]; now apply summarise_video_without_id.
  - intros key video video_id e s Hid Ht.
    split; [|apply main_for_video_summary_raises];
      now apply summarise_video_without_title with video_id.
  - intros d Hd. apply summarise_video_without_id. simpl. now rewrite Hd.
  - intros d video_id Hid Hsn. apply summarise_video_without_title with video_id.
    + simpl. now rewrite Hid.
    + unfold snippet_title. simpl. now rewrite Hsn.
  - intros d video_id snippet Hid Hsn Ht.
    apply summarise_video_without_title with video_id.
    + simpl. now rewrite Hid.
    + unfold snippet_title. simpl. rewrite Hsn. simpl. now rewrite Ht.
Qed.

End Malformed.

(** C7 does not hold as stated: the page fetch returns a payload that has
    no [items], and the detail lookup yields an entity that has neither
    identifier nor title; neither fails. *)
Lemma unchecked_payloads_are_returned :
  @fetch_playlist_items_page mock (mock_world quota_exceeded quiet)
     (VStr "k") (VStr "PL") VNone mock_init =
  (Ok quota_exceeded_payload,
   {| world := {| served := 1; queue := [] |};
      trace := [EvGet (playlist_items_request (VStr "k") (VStr "PL") VNone)] |}) /\
  getitem quota_exceeded_payload "items" = Raise (KeyError "items") /\
  @fetch_videos mock (mock_world serves_nameless quiet) 5 (VStr "k") (VStr "a") VNone
     (@record_yield mock) mock_init =
  (Ok tt,
   {| world := {| served := 1; queue := [] |};
      trace := [EvGet (videos_request (VStr "k") (VStr "a") VNone);
                EvYield nameless_entity] |}) /\
  getitem nameless_entity "id" = Raise (KeyError "id") /\
  snippet_title nameless_entity = Raise (KeyError "snippet").
Proof. repeat split. Qed.

Lemma malformed_payloads_raise_witness :
  fst (@fetch_playlist_items_page mock (mock_world error_status_html quiet)
         (VStr "k") (VStr "PL") VNone mock_init) = Raise JSONDecodeError /\
  fst (@fetch_videos_page mock (mock_world error_status_html quiet)
         (VStr "k") (VStr "a") VNone mock_init) = Raise JSONDecodeError /\
  fst (@fetch_playlist_items_page mock (mock_world quota_exceeded quiet)
         (VStr "k") (VStr "PL") VNone mock_init) = Ok quota_exceeded_payload /\
  @fetch_playlist_items mock (mock_world quota_exceeded quiet) 5
     (VStr "k") (VStr "PL") VNone (@record_yield mock) mock_init =
  (Raise (KeyError "items"),
   {| world := {| served := 1; queue := [] |};
      trace := [EvGet (playlist_items_request (VStr "k") (VStr "PL") VNone)] |}) /\
  @fetch_videos mock (mock_world serves_nameless quiet) 5 (VStr "k") (VStr "a") VNone
     (@record_yield mock) mock_init =
  (Ok tt,
   {| world := {| served := 1; queue := [] |};
      trace := [EvGet (videos_request (VStr "k") (VStr "a") VNone);
                EvYield nameless_entity] |}) /\
  summarise_video nameless_entity = Raise (KeyError "id") /\
  summarise_video (VDict [("id", VStr "a")]) = Raise (KeyError "snippet") /\
  summarise_video (VDict [("id", VStr "a"); ("snippet", VDict [])]) = Raise (KeyError "title") /\
  @main_for_video mock (mock_world serves_nameless quiet) (VStr "a") nameless_entity
     mock_init = (Raise (KeyError "id"), mock_init) /\
  @main_for_video mock (mock_world single_video quiet) (VStr "a")
     (VDict [("id", VStr "a"); ("snippet", VDict [])]) mock_init =
  (Raise (KeyError "title"), mock_init).
Proof.
  destruct (@malformed_payloads_raise mock (mock_world error_status_html quiet))
    as (Hpage & Hvideo & _).
  destruct (@malformed_payloads_raise mock (mock_world quota_exceeded quiet))
    as (_ & _ & Hpayload & _ & Hitems & _).
  destruct (@malformed_payloads_raise mock (mock_world serves_nameless quiet))
    as (_ & _ & _ & _ & _ & _ & _ & Hyields & Hloop_id & _ & Hid & Hsnippet & Htitle).
  destruct (@malformed_payloads_raise mock (mock_world single_video quiet))
    as (_ & _ & _ & _ & _ & _ & _ & _ & _ & Hloop_title & _).
  repeat apply conj.
  - apply (Hpage (VStr "k") (VStr "PL") VNone mock_init
             {| status_code := 503; text := NotJson "<html>Service Unavailable</html>" |}
             "<html>Service Unavailable</html>"); reflexivity.
  - apply (Hvideo (VStr "k") (VStr "a") VNone mock_init
             {| status_code := 503; text := NotJson "<html>Service Unavailable</html>" |}
             "<html>Service Unavailable</html>"); reflexivity.
  - apply (Hpayload (VStr "k") (VStr "PL") VNone mock_init
             {| status_code := 403; text := Json quota_exceeded_payload |}); reflexivity.
  - apply (Hitems 4%nat (VStr "k") (VStr "PL") VNone (@record_yield mock) mock_init
             {| status_code := 403; text := Json quota_exceeded_payload |}
             quota_exceeded_payload (KeyError "items")); reflexivity.
  - apply (Hyields 4%nat (VStr "k") (VStr "a") VNone mock_init
             {| page_items := [nameless_entity]; page_next := VNone |}); reflexivity.
  - apply Hid. reflexivity.
  - apply (Hsnippet _ (VStr "a")); reflexivity.
  - apply (Htitle _ (VStr "a") []); reflexivity.
  - apply (Hloop_id (VStr "a") _ (KeyError "id") mock_init). reflexivity.
  - apply (Hloop_title (VStr "a") _ (VStr "a") (KeyError "title") mock_init); reflexivity.
Defined.


(** C10 does not hold as stated for the key: the entity [video_b] has an
    [id], a title and a statistics object, its summary renamed in full has
    the key ["b"], and the record published for it in the lookup made for
    the playlist item ["a"] has the key ["a"]. *)
Lemma published_record_is_not_renamed_summary :
  let summary_b := VDict [("video_id", VStr "b"); ("title", VStr "B"); ("views", VInt 0);
                          ("likes", VInt 0); ("comments", VInt 0)] in
  summarise_video video_b = Ok summary_b /\
  renamed_record summary_b = Ok ("youtube_videos", VStr "b", published_value summary_b) /\
  produce_calls
    (trace (snd (@main_for_video_item mock (mock_world mismatched_ids quiet) 5 (VStr "k")
                   (playlist_item "a") mock_init))) =
  [("youtube_videos", VStr "a", published_value summary_b)] /\
  ("youtube_videos", VStr "a", published_value summary_b) <>
  ("youtube_videos", VStr "b", published_value summary_b).
Proof. repeat split. discriminate. Qed.
